(** * HealthCareKit: the ESP32 vital-signs firmware

    A shallow embedding of the two Arduino sketches of the repository,
    [esp32_monitor.ino] (serial transport) and the WiFi edition
    (HTTP transport), and the properties of the sampling / publishing
    pipeline proved about them.

    The sketches are imperative code over global variables and hardware
    registers.  They are embedded in a state monad over a [World] that holds
    the sketch's globals, the millisecond clock, the status LED and a trace of
    the externally visible actions.  Everything the hardware and the network
    answer is supplied by an [Env] oracle, indexed by the time of the call. *)

From Stdlib Require Import ZArith List Bool Lia String.
From Stdlib Require Import Floats.SpecFloat.
Import ListNotations.
Local Open Scope string_scope.
Local Open Scope Z_scope.

(** ** Machine integers

    On the ESP32 [int] and [long] are 32-bit two's complement and
    [unsigned long] is 32-bit.  Values are kept in [Z] and every arithmetic
    result is brought back into range explicitly. *)

Definition wrap32 (z : Z) : Z := (z + 2 ^ 31) mod 2 ^ 32 - 2 ^ 31.
Definition uwrap32 (z : Z) : Z := z mod 2 ^ 32.

(** C's conversion of an integer to [bool], and of [bool] back to [int]
    when it is compared with [HIGH]. *)
Definition to_bool (v : Z) : bool := negb (v =? 0).
Definition HIGH : Z := 1.
Definition LOW : Z := 0.
Definition bool_eq_int (b : bool) (v : Z) : bool := Z.b2z b =? v.

(** ** Pins and constants (identical in both sketches) *)

Definition BP_SENSOR_PIN : Z := 34.
Definition RESP_SENSOR_PIN : Z := 35.
Definition ECG_OUTPUT_PIN : Z := 36.
Definition ECG_LO_PLUS_PIN : Z := 39.
Definition ECG_LO_MINUS_PIN : Z := 32.
Definition LED_PIN : Z := 2.

Definition READ_INTERVAL : Z := 1000.
Definition SEND_INTERVAL : Z := 2000.

(** ** The vitals bundle *)

Record VitalData : Type := mkVitalData {
  heartRate : Z;
  bpSystolic : Z;
  bpDiastolic : Z;
  temperature : spec_float;
  oxygenSaturation : Z;
  respiratoryRate : Z;
  ecgValue : Z;
  ecgLeadsConnected : bool;
  timestamp : Z
}.

(** The C literal [0] stored into the [float] field. *)
Definition float_zero : spec_float := S754_zero false.

(** A global of static storage duration starts zeroed. *)
Definition vitals_zero : VitalData :=
  mkVitalData 0 0 0 float_zero 0 0 0 false 0.

(** ** The JSON document built by the publishers

    [StaticJsonDocument] is a keyed document filled by assignments
    [doc["k"] = v] and [doc["k"]["k'"] = v]; it is kept as an association
    list in insertion order. *)

#[warnings="-register-all"]
Inductive Json : Type :=
| JInt (z : Z)
| JFloat (f : spec_float)
| JBool (b : bool)
| JStr (s : string)
| JObj (members : list (string * Json)).

Definition JsonDocument : Type := list (string * Json).

Fixpoint jget (k : string) (d : JsonDocument) : option Json :=
  match d with
  | [] => None
  | (k', v) :: d' => if String.eqb k k' then Some v else jget k d'
  end.

Fixpoint jset (k : string) (v : Json) (d : JsonDocument) : JsonDocument :=
  match d with
  | [] => [(k, v)]
  | (k', v') :: d' =>
      if String.eqb k k' then (k, v) :: d' else (k', v') :: jset k v d'
  end.

(** [doc[k][k'] = v]: the member [k] is created as an object when absent. *)
Definition jset2 (k k' : string) (v : Json) (d : JsonDocument) : JsonDocument :=
  match jget k d with
  | Some (JObj o) => jset k (JObj (jset k' v o)) d
  | _ => jset k (JObj [(k', v)]) d
  end.

Definition jget2 (k k' : string) (d : JsonDocument) : option Json :=
  match jget k d with
  | Some (JObj o) => jget k' o
  | _ => None
  end.

(** ** Environment *)

(** [wl_status_t] of the WiFi library. *)
Inductive wl_status_t : Type :=
| WL_NO_SHIELD
| WL_IDLE_STATUS
| WL_NO_SSID_AVAIL
| WL_SCAN_COMPLETED
| WL_CONNECTED
| WL_CONNECT_FAILED
| WL_CONNECTION_LOST
| WL_DISCONNECTED.

Definition is_WL_CONNECTED (s : wl_status_t) : bool :=
  match s with WL_CONNECTED => true | _ => false end.

(** Everything outside the sketch.  Signals are functions of the time (in
    milliseconds since boot) at which the sketch asks for them.

    The pulse-oximeter readings are the values as they arrive in the [int]
    fields of [VitalData]; the temperature reading is the value as it
    arrives in the [float] field, that is, after the conversion to binary32
    which the assignment performs.  [round_tenths] is the platform's
    floating-point evaluation of [round(t * 10) / 10.0].

    Time.  The clock advances by the [delay] calls, by [http_latency], the
    time the blocking [http.POST] takes, and by [busy], the time one pass
    through [loop] spends in its own instructions.  [busy] is charged as one
    amount at the end of the pass; between two waits inside a pass, and
    inside [setup] and [connectToWiFi], the instructions take no time.  The
    durations proved below therefore count the waits exactly and the
    instructions of a pass as a lump: the [millis()] read by
    [readAllSensors] is the clock at the head of the pass plus the waits
    before it, and nothing is said about the time [setup] spends outside
    its waits. *)
Record Env : Type := mkEnv {
  serial_wait : nat;
  mlx_begin : bool;
  pox_begin : bool;
  mlx_readObjectTempC : Z -> spec_float;
  pox_getHeartRate : Z -> Z;
  pox_getSpO2 : Z -> Z;
  adc : Z -> Z -> Z;
  gpio : Z -> Z -> Z;
  WiFi_status : Z -> wl_status_t;
  http_POST : Z -> JsonDocument -> Z;
  http_latency : Z -> N;
  busy : Z -> N;
  round_tenths : spec_float -> spec_float
}.

(** The ESP32 ADC is 12 bits wide. *)
Definition adc_in_range (env : Env) : Prop :=
  forall pin t, 0 <= adc env pin t <= 4095.

(** ** Trace of visible actions *)

Inductive LogLine : Type :=
| LogSensorFound (name : string)
| LogSensorNotFound (name : string)
| LogReady
| LogWiFiLost
| LogWiFiConnecting
| LogDot
| LogWiFiConnected
| LogWiFiFailed
| LogSendOk (code : Z)
| LogSendError (code : Z)
| LogVitals (v : VitalData).

(** [EvSnapshot] is a ghost marker: [readAllSensors] returned, leaving this
    snapshot in [vitals]. *)
Inductive Event : Type :=
| EvAnalogRead (pin : Z)
| EvDigitalRead (pin : Z)
| EvTempRead
| EvPoxRead
| EvPoxUpdate
| EvSnapshot (v : VitalData)
| EvSerialRecord (doc : JsonDocument)
| EvWiFiBegin
| EvHttpPost (doc : JsonDocument) (code : Z)
| EvLog (l : LogLine).

(** ** World: globals of the sketch, clock, LED, trace (newest first)

    [lastSendTime] and [wifiConnected] exist only in the WiFi sketch; the
    serial sketch never touches them. *)
Record World : Type := mkWorld {
  clock : Z;
  led : bool;
  trace : list Event;
  vitals : VitalData;
  lastReadTime : Z;
  lastSendTime : Z;
  mlxConnected : bool;
  poxConnected : bool;
  wifiConnected : bool
}.

Definition boot : World :=
  mkWorld 0 false [] vitals_zero 0 0 false false false.

Definition with_clock (c : Z) (w : World) : World :=
  mkWorld c (led w) (trace w) (vitals w) (lastReadTime w) (lastSendTime w)
          (mlxConnected w) (poxConnected w) (wifiConnected w).
Definition with_led (b : bool) (w : World) : World :=
  mkWorld (clock w) b (trace w) (vitals w) (lastReadTime w) (lastSendTime w)
          (mlxConnected w) (poxConnected w) (wifiConnected w).
Definition with_trace (t : list Event) (w : World) : World :=
  mkWorld (clock w) (led w) t (vitals w) (lastReadTime w) (lastSendTime w)
          (mlxConnected w) (poxConnected w) (wifiConnected w).
Definition with_vitals (v : VitalData) (w : World) : World :=
  mkWorld (clock w) (led w) (trace w) v (lastReadTime w) (lastSendTime w)
          (mlxConnected w) (poxConnected w) (wifiConnected w).
Definition with_lastReadTime (t : Z) (w : World) : World :=
  mkWorld (clock w) (led w) (trace w) (vitals w) t (lastSendTime w)
          (mlxConnected w) (poxConnected w) (wifiConnected w).
Definition with_lastSendTime (t : Z) (w : World) : World :=
  mkWorld (clock w) (led w) (trace w) (vitals w) (lastReadTime w) t
          (mlxConnected w) (poxConnected w) (wifiConnected w).
Definition with_mlxConnected (b : bool) (w : World) : World :=
  mkWorld (clock w) (led w) (trace w) (vitals w) (lastReadTime w)
          (lastSendTime w) b (poxConnected w) (wifiConnected w).
Definition with_poxConnected (b : bool) (w : World) : World :=
  mkWorld (clock w) (led w) (trace w) (vitals w) (lastReadTime w)
          (lastSendTime w) (mlxConnected w) b (wifiConnected w).
Definition with_wifiConnected (b : bool) (w : World) : World :=
  mkWorld (clock w) (led w) (trace w) (vitals w) (lastReadTime w)
          (lastSendTime w) (mlxConnected w) (poxConnected w) b.

(** Field assignments [vitals.f = x]. *)
Definition set_heartRate (x : Z) (v : VitalData) : VitalData :=
  mkVitalData x (bpSystolic v) (bpDiastolic v) (temperature v)
    (oxygenSaturation v) (respiratoryRate v) (ecgValue v)
    (ecgLeadsConnected v) (timestamp v).
Definition set_bpSystolic (x : Z) (v : VitalData) : VitalData :=
  mkVitalData (heartRate v) x (bpDiastolic v) (temperature v)
    (oxygenSaturation v) (respiratoryRate v) (ecgValue v)
    (ecgLeadsConnected v) (timestamp v).
Definition set_bpDiastolic (x : Z) (v : VitalData) : VitalData :=
  mkVitalData (heartRate v) (bpSystolic v) x (temperature v)
    (oxygenSaturation v) (respiratoryRate v) (ecgValue v)
    (ecgLeadsConnected v) (timestamp v).
Definition set_temperature (x : spec_float) (v : VitalData) : VitalData :=
  mkVitalData (heartRate v) (bpSystolic v) (bpDiastolic v) x
    (oxygenSaturation v) (respiratoryRate v) (ecgValue v)
    (ecgLeadsConnected v) (timestamp v).
Definition set_oxygenSaturation (x : Z) (v : VitalData) : VitalData :=
  mkVitalData (heartRate v) (bpSystolic v) (bpDiastolic v) (temperature v)
    x (respiratoryRate v) (ecgValue v) (ecgLeadsConnected v) (timestamp v).
Definition set_respiratoryRate (x : Z) (v : VitalData) : VitalData :=
  mkVitalData (heartRate v) (bpSystolic v) (bpDiastolic v) (temperature v)
    (oxygenSaturation v) x (ecgValue v) (ecgLeadsConnected v) (timestamp v).
Definition set_ecgValue (x : Z) (v : VitalData) : VitalData :=
  mkVitalData (heartRate v) (bpSystolic v) (bpDiastolic v) (temperature v)
    (oxygenSaturation v) (respiratoryRate v) x (ecgLeadsConnected v)
    (timestamp v).
Definition set_ecgLeadsConnected (x : bool) (v : VitalData) : VitalData :=
  mkVitalData (heartRate v) (bpSystolic v) (bpDiastolic v) (temperature v)
    (oxygenSaturation v) (respiratoryRate v) (ecgValue v) x (timestamp v).
Definition set_timestamp (x : Z) (v : VitalData) : VitalData :=
  mkVitalData (heartRate v) (bpSystolic v) (bpDiastolic v) (temperature v)
    (oxygenSaturation v) (respiratoryRate v) (ecgValue v)
    (ecgLeadsConnected v) x.

(** ** The sketch monad and the Arduino primitives

    A sketch action reads and updates the world and returns a value. *)

Definition Sketch (A : Type) : Type := World -> A * World.

Definition ret {A : Type} (a : A) : Sketch A := fun w => (a, w).

Definition bind {A B : Type} (m : Sketch A) (k : A -> Sketch B) : Sketch B :=
  fun w => k (fst (m w)) (snd (m w)).

Declare Scope sketch_scope.
Delimit Scope sketch_scope with sketch.
Bind Scope sketch_scope with Sketch.
Notation "x <- m ;; k" := (bind m (fun x => k))
  (at level 61, m at next level, right associativity) : sketch_scope.
Notation "m ;; k" := (bind m (fun _ => k))
  (at level 61, right associativity) : sketch_scope.
Local Open Scope sketch_scope.

Definition get : Sketch World := fun w => (w, w).
Definition gets {A : Type} (f : World -> A) : Sketch A := fun w => (f w, w).
Definition modify (f : World -> World) : Sketch unit := fun w => (tt, f w).
Definition skip : Sketch unit := ret tt.

Definition run_sketch {A : Type} (m : Sketch A) (w : World) : World :=
  snd (m w).

Definition emit (e : Event) : Sketch unit :=
  modify (fun w => with_trace (e :: trace w) w).

Definition update_vitals (f : VitalData -> VitalData) : Sketch unit :=
  modify (fun w => with_vitals (f (vitals w)) w).

Definition Serial_println (l : LogLine) : Sketch unit := emit (EvLog l).

(** [millis()] is an [unsigned long]: the clock modulo 2^32. *)
Definition millis : Sketch Z := gets (fun w => uwrap32 (clock w)).

Definition delay (ms : Z) : Sketch unit :=
  modify (fun w => with_clock (clock w + ms) w).

(** [digitalWrite(LED_PIN, v)] and [digitalRead(LED_PIN)]. *)
Definition LED_write (level : Z) : Sketch unit :=
  modify (with_led (to_bool level)).

Definition LED_read : Sketch Z := gets (fun w => Z.b2z (led w)).

(** Modelled from the spec: Arduino's [map], which [readBloodPressure] and
    [readRespiratoryRate] call and which is not among the sources.  The spec
    describes it as the linear remap of the full input range onto the output
    range (two points: domain min/max to range min/max) in integer
    arithmetic; that is the Arduino formula
    [(x - in_min) * (out_max - out_min) / (in_max - in_min) + out_min],
    evaluated in [long] with truncating division (and [-1] for an empty
    input range, as the ESP32 core does). *)
Definition map (x in_min in_max out_min out_max : Z) : Z :=
  let run := wrap32 (in_max - in_min) in
  if run =? 0 then -1
  else
    let rise := wrap32 (out_max - out_min) in
    let delta := wrap32 (x - in_min) in
    wrap32 (wrap32 (Z.quot (wrap32 (delta * rise)) run) + out_min).

Section Drivers.

Variable env : Env.

Definition analogRead (pin : Z) : Sketch Z :=
  t <- gets clock ;; emit (EvAnalogRead pin) ;; ret (adc env pin t).

Definition digitalRead (pin : Z) : Sketch Z :=
  t <- gets clock ;; emit (EvDigitalRead pin) ;; ret (gpio env pin t).

(** The object temperature, as the [float] field receives it. *)
Definition mlx_readObjectTempC_ : Sketch spec_float :=
  t <- gets clock ;; emit EvTempRead ;; ret (mlx_readObjectTempC env t).

Definition pox_getHeartRate_ : Sketch Z :=
  t <- gets clock ;; emit EvPoxRead ;; ret (pox_getHeartRate env t).

Definition pox_getSpO2_ : Sketch Z :=
  t <- gets clock ;; emit EvPoxRead ;; ret (pox_getSpO2 env t).

Definition pox_update : Sketch unit := emit EvPoxUpdate.

Definition WiFi_status_ : Sketch wl_status_t :=
  t <- gets clock ;; ret (WiFi_status env t).

(** The instructions of one pass through [loop] take [busy] milliseconds;
    the time is charged at the end of the pass, none of it inside
    [readAllSensors], the publisher or [connectToWiFi]. *)
Definition spend_busy : Sketch unit :=
  t <- gets clock ;; delay (Z.of_N (busy env t)).

(** *** Sampler (the same text in both sketches) *)

Definition readBloodPressure : Sketch Z :=
  rawValue <- analogRead BP_SENSOR_PIN ;;
  let systolic := map rawValue 0 4095 80 180 in
  ret systolic.

Definition readRespiratoryRate : Sketch Z :=
  rawValue <- analogRead RESP_SENSOR_PIN ;;
  let rate := map rawValue 0 4095 8 25 in
  ret rate.

Definition readECGData : Sketch unit :=
  lp <- digitalRead ECG_LO_PLUS_PIN ;;
  lm <- digitalRead ECG_LO_MINUS_PIN ;;
  let loPlus := to_bool lp in
  let loMinus := to_bool lm in
  if bool_eq_int loPlus HIGH || bool_eq_int loMinus HIGH then
    update_vitals (set_ecgLeadsConnected false) ;;
    update_vitals (set_ecgValue 0)
  else
    update_vitals (set_ecgLeadsConnected true) ;;
    v <- analogRead ECG_OUTPUT_PIN ;;
    update_vitals (set_ecgValue v).

Definition readAllSensors : Sketch unit :=
  mlx <- gets mlxConnected ;;
  (if mlx then
     t <- mlx_readObjectTempC_ ;;
     update_vitals (set_temperature t)
   else
     update_vitals (set_temperature float_zero)) ;;
  pox <- gets poxConnected ;;
  (if pox then
     hr <- pox_getHeartRate_ ;;
     update_vitals (set_heartRate hr) ;;
     sp <- pox_getSpO2_ ;;
     update_vitals (set_oxygenSaturation sp) ;;
     hr' <- gets (fun w => heartRate (vitals w)) ;;
     (if (hr' <? 30) || (hr' >? 200) then update_vitals (set_heartRate 0)
      else skip) ;;
     sp' <- gets (fun w => oxygenSaturation (vitals w)) ;;
     (if (sp' <? 70) || (sp' >? 100) then
        update_vitals (set_oxygenSaturation 0)
      else skip)
   else
     update_vitals (set_heartRate 0) ;;
     update_vitals (set_oxygenSaturation 0)) ;;
  sys <- readBloodPressure ;;
  update_vitals (set_bpSystolic sys) ;;
  sys' <- gets (fun w => bpSystolic (vitals w)) ;;
  update_vitals (set_bpDiastolic (wrap32 (sys' - 40))) ;;
  rr <- readRespiratoryRate ;;
  update_vitals (set_respiratoryRate rr) ;;
  readECGData ;;
  now <- millis ;;
  update_vitals (set_timestamp now) ;;
  v <- gets vitals ;;
  emit (EvSnapshot v).

(** *** The record both publishers build, up to [device_id] *)

Definition base_document (w : World) : JsonDocument :=
  let v := vitals w in
  let doc := [] in
  let doc := jset "hr" (JInt (heartRate v)) doc in
  let doc := jset "bp_sys" (JInt (bpSystolic v)) doc in
  let doc := jset "bp_dia" (JInt (bpDiastolic v)) doc in
  let doc := jset "temp" (JFloat (round_tenths env (temperature v))) doc in
  let doc := jset "spo2" (JInt (oxygenSaturation v)) doc in
  let doc := jset "rr" (JInt (respiratoryRate v)) doc in
  let doc := jset "ecg" (JInt (ecgValue v)) doc in
  let doc := jset "ecg_leads" (JBool (ecgLeadsConnected v)) doc in
  let doc := jset "timestamp" (JInt (timestamp v)) doc in
  doc.

Definition sensor_flags (w : World) (doc : JsonDocument) : JsonDocument :=
  let doc := jset2 "sensors" "mlx90614" (JBool (mlxConnected w)) doc in
  let doc := jset2 "sensors" "max30100" (JBool (poxConnected w)) doc in
  doc.

(** [if (dev.begin()) { flag = true; println(found) } else println(missing)] *)
Definition probe (present : bool) (flag : bool -> World -> World)
    (name : string) : Sketch unit :=
  if present then
    modify (flag true) ;; Serial_println (LogSensorFound name)
  else Serial_println (LogSensorNotFound name).

End Drivers.

(** ** The serial sketch, [esp32_monitor.ino]

    Calls that configure a peripheral and leave no mark on the world
    ([Serial.begin], [pinMode], [Wire.begin], and in the WiFi sketch
    [http.begin], [http.addHeader], [http.end]) are not transcribed. *)

Module Serial.
Section Sketch.

Variable env : Env.

(** [while (!Serial) delay(10);] : the port becomes ready after
    [serial_wait] polls. *)
Fixpoint wait_serial (polls : nat) : Sketch unit :=
  match polls with
  | O => skip
  | S polls' => delay 10 ;; wait_serial polls'
  end.

Definition setup : Sketch unit :=
  wait_serial (serial_wait env) ;;
  LED_write LOW ;;
  probe (mlx_begin env) with_mlxConnected "MLX90614" ;;
  probe (pox_begin env) with_poxConnected "MAX30100" ;;
  Serial_println LogReady.

Definition sendVitalData : Sketch unit :=
  w <- get ;;
  let doc := base_document env w in
  let doc := sensor_flags w doc in
  emit (EvSerialRecord doc).

Definition loop : Sketch unit :=
  currentTime <- millis ;;
  lastRead <- gets lastReadTime ;;
  (if uwrap32 (currentTime - lastRead) >=? READ_INTERVAL then
     readAllSensors env ;;
     sendVitalData ;;
     modify (with_lastReadTime currentTime) ;;
     LED_write HIGH ;;
     delay 50 ;;
     LED_write LOW
   else skip) ;;
  pox <- gets poxConnected ;;
  (if pox then pox_update else skip) ;;
  spend_busy env.

(** [n] passes through [loop]. *)
Fixpoint passes (n : nat) (w : World) : World :=
  match n with
  | O => w
  | S n' => passes n' (run_sketch loop w)
  end.

(** The world after power-up, [setup] and [n] passes. *)
Definition session (n : nat) : World := passes n (run_sketch setup boot).

End Sketch.
End Serial.

(** ** The WiFi sketch *)

Module WiFi.
Section Sketch.

Variable env : Env.

(** [while (WiFi.status() != WL_CONNECTED && attempts < 20) { ... }]
    The loop runs at most 20 times, so it is unrolled on [fuel]; with fuel
    21 the condition is what ends it (see [connect_wait_fuel]). *)
Fixpoint connect_wait (fuel : nat) (attempts : Z) : Sketch Z :=
  match fuel with
  | O => ret attempts
  | S fuel' =>
      st <- WiFi_status_ env ;;
      if negb (is_WL_CONNECTED st) && (attempts <? 20) then
        delay 500 ;;
        Serial_println LogDot ;;
        l <- LED_read ;;
        LED_write (Z.b2z (l =? 0)) ;;
        connect_wait fuel' (wrap32 (attempts + 1))
      else ret attempts
  end.

Definition connectToWiFi : Sketch unit :=
  Serial_println LogWiFiConnecting ;;
  emit EvWiFiBegin ;;
  _ <- connect_wait 21 0 ;;
  st <- WiFi_status_ env ;;
  if is_WL_CONNECTED st then
    modify (with_wifiConnected true) ;;
    LED_write HIGH ;;
    Serial_println LogWiFiConnected
  else
    modify (with_wifiConnected false) ;;
    LED_write LOW ;;
    Serial_println LogWiFiFailed.

Definition setup : Sketch unit :=
  delay 1000 ;;
  LED_write LOW ;;
  connectToWiFi ;;
  probe (mlx_begin env) with_mlxConnected "MLX90614" ;;
  probe (pox_begin env) with_poxConnected "MAX30100" ;;
  Serial_println LogReady.

Definition sendVitalDataToAPI : Sketch unit :=
  wifi <- gets wifiConnected ;;
  if negb wifi then skip
  else
    w <- get ;;
    let doc := base_document env w in
    let doc := jset "device_id" (JStr "ESP32_001") doc in
    let doc := sensor_flags w doc in
    let httpResponseCode := http_POST env (clock w) doc in
    emit (EvHttpPost doc httpResponseCode) ;;
    delay (Z.of_N (http_latency env (clock w))) ;;
    (if httpResponseCode >? 0 then
       Serial_println (LogSendOk httpResponseCode) ;;
       LED_write LOW ;;
       delay 50 ;;
       LED_write HIGH
     else Serial_println (LogSendError httpResponseCode)) ;;
    v <- gets vitals ;;
    Serial_println (LogVitals v).

Definition loop : Sketch unit :=
  currentTime <- millis ;;
  st <- WiFi_status_ env ;;
  (if negb (is_WL_CONNECTED st) then
     modify (with_wifiConnected false) ;;
     Serial_println LogWiFiLost ;;
     connectToWiFi
   else skip) ;;
  lastRead <- gets lastReadTime ;;
  (if uwrap32 (currentTime - lastRead) >=? READ_INTERVAL then
     readAllSensors env ;;
     modify (with_lastReadTime currentTime)
   else skip) ;;
  wifi <- gets wifiConnected ;;
  lastSend <- gets lastSendTime ;;
  (if wifi && (uwrap32 (currentTime - lastSend) >=? SEND_INTERVAL) then
     sendVitalDataToAPI ;;
     modify (with_lastSendTime currentTime)
   else skip) ;;
  pox <- gets poxConnected ;;
  (if pox then pox_update else skip) ;;
  delay 10 ;;
  spend_busy env.

Fixpoint passes (n : nat) (w : World) : World :=
  match n with
  | O => w
  | S n' => passes n' (run_sketch loop w)
  end.

Definition session (n : nat) : World := passes n (run_sketch setup boot).

End Sketch.
End WiFi.

(** ** Observations on worlds and traces *)

(** Snapshots, serial records and HTTP requests of a trace, newest first. *)
Fixpoint snapshots (tr : list Event) : list VitalData :=
  match tr with
  | [] => []
  | EvSnapshot v :: tr' => v :: snapshots tr'
  | _ :: tr' => snapshots tr'
  end.

Fixpoint records (tr : list Event) : list JsonDocument :=
  match tr with
  | [] => []
  | EvSerialRecord d :: tr' => d :: records tr'
  | _ :: tr' => records tr'
  end.

Fixpoint posts (tr : list Event) : list (JsonDocument * Z) :=
  match tr with
  | [] => []
  | EvHttpPost d code :: tr' => (d, code) :: posts tr'
  | _ :: tr' => posts tr'
  end.

(** The events emitted on the way from [w] to [w'], newest first. *)
Definition new_events (w w' : World) : list Event :=
  firstn (List.length (trace w') - List.length (trace w)) (trace w').

(** Number of [readAllSensors] calls so far. *)
Definition reads (w : World) : Z := Z.of_nat (List.length (snapshots (trace w))).

(** A lead-off pin signals a detached electrode when it does not read LOW. *)
Definition lead_off (env : Env) (pin t : Z) : Prop := gpio env pin t <> LOW.

Definition leads_off (env : Env) (t : Z) : bool :=
  bool_eq_int (to_bool (gpio env ECG_LO_PLUS_PIN t)) HIGH
  || bool_eq_int (to_bool (gpio env ECG_LO_MINUS_PIN t)) HIGH.

(** The plausibility filter of [readAllSensors]: out of range becomes 0. *)
Definition plausible (lo hi raw : Z) : Z :=
  if (raw <? lo) || (raw >? hi) then 0 else raw.

(** Closed form of the snapshot [readAllSensors] leaves in [vitals], and of
    the hardware accesses it makes (see [readAllSensors_run]). *)
Definition snapshot_of (env : Env) (w : World) : VitalData :=
  let t := clock w in
  let sys := map (adc env BP_SENSOR_PIN t) 0 4095 80 180 in
  {| heartRate :=
       if poxConnected w then plausible 30 200 (pox_getHeartRate env t) else 0;
     bpSystolic := sys;
     bpDiastolic := wrap32 (sys - 40);
     temperature :=
       if mlxConnected w then mlx_readObjectTempC env t else float_zero;
     oxygenSaturation :=
       if poxConnected w then plausible 70 100 (pox_getSpO2 env t) else 0;
     respiratoryRate := map (adc env RESP_SENSOR_PIN t) 0 4095 8 25;
     ecgValue := if leads_off env t then 0 else adc env ECG_OUTPUT_PIN t;
     ecgLeadsConnected := negb (leads_off env t);
     timestamp := uwrap32 t |}.

Definition sampler_accesses (env : Env) (w : World) : list Event :=
  ((if leads_off env (clock w) then [] else [EvAnalogRead ECG_OUTPUT_PIN])
   ++ [EvDigitalRead ECG_LO_MINUS_PIN; EvDigitalRead ECG_LO_PLUS_PIN;
       EvAnalogRead RESP_SENSOR_PIN; EvAnalogRead BP_SENSOR_PIN]
   ++ (if poxConnected w then [EvPoxRead; EvPoxRead] else [])
   ++ (if mlxConnected w then [EvTempRead] else []))%list.

(** ** Reasoning about sketches

    [wp m Q w]: running [m] from [w] ends in a value and a world that
    satisfy [Q]. *)

Definition wp {A : Type} (m : Sketch A) (Q : A -> World -> Prop) (w : World)
  : Prop :=
  Q (fst (m w)) (snd (m w)).

(** ** Closed forms of one pass through [loop]

    What a call leaves behind, written as one world.  Each is proved equal
    to the run of the sketch function it describes. *)

(** The world after [readAllSensors]. *)
Definition sampled (env : Env) (w : World) : World :=
  with_trace
    (EvSnapshot (snapshot_of env w) :: (sampler_accesses env w ++ trace w)%list)
    (with_vitals (snapshot_of env w) w).

(** [currentTime - lastReadTime >= READ_INTERVAL], in [unsigned long]. *)
Definition read_due (currentTime : Z) (w : World) : bool :=
  uwrap32 (currentTime - lastReadTime w) >=? READ_INTERVAL.

(** [wifiConnected && currentTime - lastSendTime >= SEND_INTERVAL]. *)
Definition send_due (currentTime : Z) (w : World) : bool :=
  wifiConnected w && (uwrap32 (currentTime - lastSendTime w) >=? SEND_INTERVAL).

Definition pox_updated (w : World) : World :=
  if poxConnected w then with_trace (EvPoxUpdate :: trace w) w else w.

Definition serial_record (env : Env) (w : World) : JsonDocument :=
  sensor_flags w (base_document env w).

Definition serial_pass (env : Env) (w : World) : World :=
  let currentTime := uwrap32 (clock w) in
  let w1 :=
    if read_due currentTime w then
      let ws := sampled env w in
      with_led false
        (with_clock (clock w + 50)
           (with_led true
              (with_lastReadTime currentTime
                 (with_trace (EvSerialRecord (serial_record env ws) :: trace ws)
                    ws))))
    else w in
  let w2 := pox_updated w1 in
  with_clock (clock w2 + Z.of_N (busy env (clock w2))) w2.

Definition api_document (env : Env) (w : World) : JsonDocument :=
  sensor_flags w (jset "device_id" (JStr "ESP32_001") (base_document env w)).

Definition api_code (env : Env) (w : World) : Z :=
  http_POST env (clock w) (api_document env w).

(** The world after [sendVitalDataToAPI] got past its guard. *)
Definition posted (env : Env) (w : World) : World :=
  let code := api_code env w in
  let answered := clock w + Z.of_N (http_latency env (clock w)) in
  let sent :=
    with_clock answered
      (with_trace (EvHttpPost (api_document env w) code :: trace w) w) in
  let logged :=
    if code >? 0 then
      with_led true
        (with_clock (answered + 50)
           (with_led false
              (with_trace (EvLog (LogSendOk code) :: trace sent) sent)))
    else with_trace (EvLog (LogSendError code) :: trace sent) sent in
  with_trace (EvLog (LogVitals (vitals w)) :: trace logged) logged.

(** The link check at the head of the WiFi [loop]. *)
Definition link_checked (env : Env) (w : World) : World :=
  if is_WL_CONNECTED (WiFi_status env (clock w)) then w
  else
    run_sketch (WiFi.connectToWiFi env)
      (with_trace (EvLog LogWiFiLost :: trace w) (with_wifiConnected false w)).

Definition wifi_sampled (env : Env) (currentTime : Z) (w : World) : World :=
  if read_due currentTime w then with_lastReadTime currentTime (sampled env w)
  else w.

Definition wifi_published (env : Env) (currentTime : Z) (w : World) : World :=
  if send_due currentTime w then with_lastSendTime currentTime (posted env w)
  else w.

(** The pass after the link check, with [currentTime] as read at its head. *)
Definition wifi_rest (env : Env) (currentTime : Z) (w1 : World) : World :=
  let w2 := wifi_sampled env currentTime w1 in
  let w3 := wifi_published env currentTime w2 in
  let w4 := pox_updated w3 in
  let w5 := with_clock (clock w4 + 10) w4 in
  with_clock (clock w5 + Z.of_N (busy env (clock w5))) w5.

Definition wifi_pass (env : Env) (w : World) : World :=
  wifi_rest env (uwrap32 (clock w)) (link_checked env w).

(** ** Properties named by the claims *)

(** The pulse-oximeter fields of a snapshot hold their zero sentinel. *)
Definition pox_zeroed (v : VitalData) : Prop :=
  heartRate v = 0 /\ oxygenSaturation v = 0.

Definition temperature_zeroed (v : VitalData) : Prop :=
  temperature v = float_zero.

(** The record reports [sensors.<name>] as [false]. *)
Definition reports_absent (name : string) (d : JsonDocument) : Prop :=
  jget2 "sensors" name d = Some (JBool false).

(** Snapshots are listed newest first: each must be stamped later than the
    one that follows it in the list. *)
Definition stamped_after (later earlier : VitalData) : Prop :=
  timestamp earlier < timestamp later.

Inductive increasing_stamps : list VitalData -> Prop :=
| stamps_nil : increasing_stamps []
| stamps_one v : increasing_stamps [v]
| stamps_cons later earlier l :
    stamped_after later earlier ->
    increasing_stamps (earlier :: l) ->
    increasing_stamps (later :: earlier :: l).

Fixpoint increasing_stampsb (l : list VitalData) : bool :=
  match l with
  | later :: (earlier :: _) as l' =>
      (timestamp earlier <? timestamp later) && increasing_stampsb l'
  | _ => true
  end.

(** A world whose past snapshots carry the true time at which they were
    taken, in increasing order, all before now. *)
Definition well_stamped (w : World) : Prop :=
  0 <= clock w /\
  increasing_stamps (snapshots (trace w)) /\
  Forall (fun v => timestamp v < clock w) (snapshots (trace w)).


(** C8 as stated and as amended: the success branch of
    [sendVitalDataToAPI] is the one that logs [LogSendOk]. *)
Definition is_send_ok (e : Event) : bool :=
  match e with EvLog (LogSendOk _) => true | _ => false end.

Definition recorded_successful (w w' : World) : Prop :=
  existsb is_send_ok (new_events w w') = true.

(** ** Concrete environments *)

(** Everything works; the blood-pressure input sits at the bottom of its
    range. *)
Definition quiet_env : Env :=
  {| serial_wait := 0;
     mlx_begin := true;
     pox_begin := true;
     mlx_readObjectTempC := fun _ => S754_finite false 37 0;
     pox_getHeartRate := fun _ => 72;
     pox_getSpO2 := fun _ => 98;
     adc := fun pin _ => if pin =? BP_SENSOR_PIN then 0 else 2048;
     gpio := fun _ _ => LOW;
     WiFi_status := fun _ => WL_CONNECTED;
     http_POST := fun _ _ => 200;
     http_latency := fun _ => 20%N;
     busy := fun _ => 1%N;
     round_tenths := fun x => x |}.

(** A finger that moves on the pulse oximeter: the heart rate reads 250. *)
Definition noisy_env : Env :=
  {| serial_wait := 0;
     mlx_begin := true;
     pox_begin := true;
     mlx_readObjectTempC := fun _ => S754_finite false 37 0;
     pox_getHeartRate := fun _ => 250;
     pox_getSpO2 := fun _ => 98;
     adc := fun _ _ => 2048;
     gpio := fun _ _ => LOW;
     WiFi_status := fun _ => WL_CONNECTED;
     http_POST := fun _ _ => 200;
     http_latency := fun _ => 20%N;
     busy := fun _ => 1%N;
     round_tenths := fun x => x |}.

(** A running device with both sensors present, five seconds after boot. *)
Definition sampling_world : World :=
  mkWorld 5000 false [] vitals_zero 4000 0 true true true.

(** No access point in reach, for the whole session. *)
Definition no_wifi_env : Env :=
  {| serial_wait := 0;
     mlx_begin := true;
     pox_begin := true;
     mlx_readObjectTempC := fun _ => S754_finite false 37 0;
     pox_getHeartRate := fun _ => 72;
     pox_getSpO2 := fun _ => 98;
     adc := fun _ _ => 2048;
     gpio := fun _ _ => LOW;
     WiFi_status := fun _ => WL_DISCONNECTED;
     http_POST := fun _ _ => -1;
     http_latency := fun _ => 0%N;
     busy := fun _ => 0%N;
     round_tenths := fun x => x |}.

(** The transport answers every request with status 0. *)
Definition status0_env : Env :=
  {| serial_wait := 0;
     mlx_begin := true;
     pox_begin := true;
     mlx_readObjectTempC := fun _ => S754_finite false 37 0;
     pox_getHeartRate := fun _ => 72;
     pox_getSpO2 := fun _ => 98;
     adc := fun _ _ => 2048;
     gpio := fun _ _ => LOW;
     WiFi_status := fun _ => WL_CONNECTED;
     http_POST := fun _ _ => 0;
     http_latency := fun _ => 20%N;
     busy := fun _ => 0%N;
     round_tenths := fun x => x |}.

(** Neither capability-gated sensor answers its probe. *)
Definition no_sensors_env : Env :=
  {| serial_wait := 3;
     mlx_begin := false;
     pox_begin := false;
     mlx_readObjectTempC := fun _ => S754_finite false 37 0;
     pox_getHeartRate := fun _ => 72;
     pox_getSpO2 := fun _ => 98;
     adc := fun _ _ => 4095;
     gpio := fun pin _ => if pin =? ECG_LO_PLUS_PIN then HIGH else LOW;
     WiFi_status := fun _ => WL_CONNECTED;
     http_POST := fun _ _ => 200;
     http_latency := fun _ => 20%N;
     busy := fun _ => 400%N;
     round_tenths := fun x => x |}.

(** What the reconnection code may touch: the clock (by at most [bound]
    milliseconds), the LED, the log and [wifiConnected]; nothing else. *)
Definition link_step (bound : Z) (w w' : World) : Prop :=
  vitals w' = vitals w /\
  lastReadTime w' = lastReadTime w /\
  lastSendTime w' = lastSendTime w /\
  mlxConnected w' = mlxConnected w /\
  poxConnected w' = poxConnected w /\
  clock w <= clock w' <= clock w + bound /\
  snapshots (trace w') = snapshots (trace w) /\
  records (trace w') = records (trace w) /\
  posts (trace w') = posts (trace w).

(** A capability-gated sensor is reported absent throughout a world's
    history: its flag is false, the current and all past snapshots hold the
    zero sentinel, and every published record says [false].  [flag] selects
    the capability flag, [zeroed] the sentinel, [name] the key under
    [sensors]. *)
Definition reported_absent (flag : World -> bool) (zeroed : VitalData -> Prop)
    (name : string) (w : World) : Prop :=
  flag w = false /\
  zeroed (vitals w) /\
  Forall zeroed (snapshots (trace w)) /\
  Forall (reports_absent name) (records (trace w)) /\
  Forall (fun p => reports_absent name (fst p)) (posts (trace w)).

(** A device that has been up for 49 days and 17 hours, one second after
    its latest sample; and an environment in which a pass of the serial
    loop that samples takes exactly one second. *)
Definition uptime_49_days : World :=
  let v :=
    mkVitalData 72 128 88 (S754_finite false 37 0) 98 16 2048 true
      4294965500 in
  mkWorld 4294966500 false [EvSnapshot v] v 4294965500 0 true true false.

Definition steady_env : Env :=
  {| serial_wait := 0;
     mlx_begin := true;
     pox_begin := true;
     mlx_readObjectTempC := fun _ => S754_finite false 37 0;
     pox_getHeartRate := fun _ => 72;
     pox_getSpO2 := fun _ => 98;
     adc := fun _ _ => 2048;
     gpio := fun _ _ => LOW;
     WiFi_status := fun _ => WL_CONNECTED;
     http_POST := fun _ _ => 200;
     http_latency := fun _ => 20%N;
     busy := fun _ => 950%N;
     round_tenths := fun x => x |}.

(** ** The telemetry record, read back

    What a collector finds in a published document: the nine vitals fields,
    the two capability entries under [sensors], and [device_id] when there
    is one. *)

Definition jint (k : string) (d : JsonDocument) : option Z :=
  match jget k d with Some (JInt z) => Some z | _ => None end.

Definition jfloat (k : string) (d : JsonDocument) : option spec_float :=
  match jget k d with Some (JFloat f) => Some f | _ => None end.

Definition jbool (k : string) (d : JsonDocument) : option bool :=
  match jget k d with Some (JBool b) => Some b | _ => None end.

Definition jbool2 (k k' : string) (d : JsonDocument) : option bool :=
  match jget2 k k' d with Some (JBool b) => Some b | _ => None end.

Definition jstr (k : string) (d : JsonDocument) : option string :=
  match jget k d with Some (JStr s) => Some s | _ => None end.

Record Telemetry : Type := mkTelemetry {
  t_vitals : VitalData;
  t_mlx90614 : bool;
  t_max30100 : bool;
  t_device_id : option string
}.

Definition and_then {A B : Type} (o : option A) (k : A -> option B)
  : option B :=
  match o with Some a => k a | None => None end.

Definition parse_record (d : JsonDocument) : option Telemetry :=
  and_then (jint "hr" d) (fun hr =>
  and_then (jint "bp_sys" d) (fun sys =>
  and_then (jint "bp_dia" d) (fun dia =>
  and_then (jfloat "temp" d) (fun temp =>
  and_then (jint "spo2" d) (fun spo2 =>
  and_then (jint "rr" d) (fun rr =>
  and_then (jint "ecg" d) (fun ecg =>
  and_then (jbool "ecg_leads" d) (fun leads =>
  and_then (jint "timestamp" d) (fun ts =>
  and_then (jbool2 "sensors" "mlx90614" d) (fun mlx =>
  and_then (jbool2 "sensors" "max30100" d) (fun pox =>
  Some (mkTelemetry (mkVitalData hr sys dia temp spo2 rr ecg leads ts)
          mlx pox (jstr "device_id" d))))))))))))).

(** The snapshot as it is published: the temperature goes through
    [round(t * 10) / 10.0], the other fields are copied. *)
Definition published (env : Env) (v : VitalData) : VitalData :=
  set_temperature (round_tenths env (temperature v)) v.

(** The ranges the sampler keeps its fields in. *)
Definition snapshot_in_range (v : VitalData) : Prop :=
  (heartRate v = 0 \/ 30 <= heartRate v <= 200) /\
  (oxygenSaturation v = 0 \/ 70 <= oxygenSaturation v <= 100) /\
  80 <= bpSystolic v <= 180 /\
  40 <= bpDiastolic v <= 140 /\
  8 <= respiratoryRate v <= 25 /\
  (if ecgLeadsConnected v then 0 <= ecgValue v <= 4095 else ecgValue v = 0) /\
  0 <= timestamp v < 2 ^ 32.

(** The access point comes into reach 21.005 s after boot, just after the
    second connection attempt has given up. *)
Definition late_wifi_env : Env :=
  {| serial_wait := 0;
     mlx_begin := true;
     pox_begin := true;
     mlx_readObjectTempC := fun _ => S754_finite false 37 0;
     pox_getHeartRate := fun _ => 72;
     pox_getSpO2 := fun _ => 98;
     adc := fun _ _ => 2048;
     gpio := fun _ _ => LOW;
     WiFi_status :=
       fun t => if t <? 21005 then WL_DISCONNECTED else WL_CONNECTED;
     http_POST := fun _ _ => 200;
     http_latency := fun _ => 20%N;
     busy := fun _ => 0%N;
     round_tenths := fun x => x |}.

(** The request body is the record of a snapshot taken in this session. *)
Definition carries_snapshot_of (env : Env) (taken : list VitalData)
    (p : JsonDocument * Z) : Prop :=
  exists v,
    In v taken /\
    parse_record (fst p)
    = Some (mkTelemetry (published env v) (mlx_begin env) (pox_begin env)
              (Some "ESP32_001")).



(** Both analog proxies rise with time, from 0 at boot to full scale. *)
Definition ramp_env : Env :=
  {| serial_wait := 0;
     mlx_begin := true;
     pox_begin := true;
     mlx_readObjectTempC := fun _ => S754_finite false 37 0;
     pox_getHeartRate := fun _ => 72;
     pox_getSpO2 := fun _ => 98;
     adc := fun _ t => Z.min (Z.max t 0) 4095;
     gpio := fun _ _ => LOW;
     WiFi_status := fun _ => WL_CONNECTED;
     http_POST := fun _ _ => 200;
     http_latency := fun _ => 20%N;
     busy := fun _ => 1%N;
     round_tenths := fun x => x |}.

(** The probe outcomes written to the log, newest first, and the line a
    probe with a given outcome writes. *)
Fixpoint probe_lines (tr : list Event) : list LogLine :=
  match tr with
  | [] => []
  | EvLog (LogSensorFound name) :: tr' =>
      LogSensorFound name :: probe_lines tr'
  | EvLog (LogSensorNotFound name) :: tr' =>
      LogSensorNotFound name :: probe_lines tr'
  | _ :: tr' => probe_lines tr'
  end.

Definition probe_line (present : bool) (name : string) : LogLine :=
  if present then LogSensorFound name else LogSensorNotFound name.

Lemma wp_bind {A B : Type} (m : Sketch A) (k : A -> Sketch B) Q w :
  wp m (fun a w' => wp (k a) Q w') w -> wp (bind m k) Q w.
Proof. exact (fun H => H). Qed.

Lemma wp_ret {A : Type} (a : A) Q w : Q a w -> wp (ret a) Q w.
Proof. exact (fun H => H). Qed.

Lemma wp_gets {A : Type} (f : World -> A) Q w : Q (f w) w -> wp (gets f) Q w.
Proof. exact (fun H => H). Qed.

Lemma wp_get Q w : Q w w -> wp get Q w.
Proof. exact (fun H => H). Qed.

Lemma wp_modify f Q w : Q tt (f w) -> wp (modify f) Q w.
Proof. exact (fun H => H). Qed.

Lemma wp_run {A : Type} (m : Sketch A) (P : World -> Prop) w :
  wp m (fun _ w' => P w') w -> P (run_sketch m w).
Proof. exact (fun H => H). Qed.

Arguments map : simpl never.
Arguments wrap32 : simpl never.
Arguments uwrap32 : simpl never.

(** Projections of updated worlds and bundles. *)
Ltac wsimpl :=
  cbn [clock led trace vitals lastReadTime lastSendTime mlxConnected
       poxConnected wifiConnected
       with_clock with_led with_trace with_vitals with_lastReadTime
       with_lastSendTime with_mlxConnected with_poxConnected
       with_wifiConnected
       heartRate bpSystolic bpDiastolic temperature oxygenSaturation
       respiratoryRate ecgValue ecgLeadsConnected timestamp
       set_heartRate set_bpSystolic set_bpDiastolic set_temperature
       set_oxygenSaturation set_respiratoryRate set_ecgValue
       set_ecgLeadsConnected set_timestamp] in *.

(** One step of symbolic execution; a conditional splits the goal. *)
Ltac wp_prim :=
  lazymatch goal with
  | |- wp (bind _ _) _ _ => apply wp_bind
  | |- wp (ret _) _ _ => apply wp_ret
  | |- wp skip _ _ => apply wp_ret
  | |- wp get _ _ => apply wp_get
  | |- wp (gets _) _ _ => apply wp_gets
  | |- wp (modify _) _ _ => apply wp_modify
  | |- wp (emit _) _ _ => apply wp_modify
  | |- wp (update_vitals _) _ _ => apply wp_modify
  | |- wp (Serial_println _) _ _ => apply wp_modify
  | |- wp (delay _) _ _ => apply wp_modify
  | |- wp (LED_write _) _ _ => apply wp_modify
  | |- wp (pox_update) _ _ => apply wp_modify
  | |- wp LED_read _ _ => apply wp_gets
  | |- wp millis _ _ => apply wp_gets
  | |- wp (if ?c then _ else _) _ _ => destruct c eqn:?
  end; cbv beta; wsimpl.

Ltac wp_steps := repeat wp_prim.

Ltac destruct_world w :=
  let v := fresh "v" in
  destruct w as [?now ?lit ?tr v ?lastRead ?lastSend ?mlx ?pox ?wifi];
  destruct v.

Ltac rewrite_tests :=
  repeat match goal with H : _ = _ |- _ => rewrite H; clear H end.

(** ** The sampler *)

Lemma readAllSensors_run env w :
  run_sketch (readAllSensors env) w =
  with_trace
    (EvSnapshot (snapshot_of env w) :: (sampler_accesses env w ++ trace w)%list)
    (with_vitals (snapshot_of env w) w).
Proof.
  destruct_world w.
  apply wp_run.
  unfold readAllSensors, readBloodPressure, readRespiratoryRate, readECGData,
    mlx_readObjectTempC_, pox_getHeartRate_, pox_getSpO2_, analogRead,
    digitalRead.
  wp_steps.
  all: unfold snapshot_of, sampler_accesses, plausible, leads_off; wsimpl.
  all: rewrite_tests; reflexivity.
Qed.

Lemma new_events_app w w' evs :
  trace w' = (evs ++ trace w)%list -> new_events w w' = evs.
Proof.
  intros H. unfold new_events. rewrite H, length_app.
  replace (List.length evs + List.length (trace w) - List.length (trace w))%nat
    with (List.length evs + 0)%nat by lia.
  rewrite firstn_app_2. cbn. apply app_nil_r.
Qed.

Lemma readAllSensors_vitals env w :
  vitals (run_sketch (readAllSensors env) w) = snapshot_of env w.
Proof. rewrite readAllSensors_run. reflexivity. Qed.

Lemma readAllSensors_new_events env w :
  new_events w (run_sketch (readAllSensors env) w) =
  EvSnapshot (snapshot_of env w) :: sampler_accesses env w.
Proof.
  apply new_events_app. rewrite readAllSensors_run. reflexivity.
Qed.

Lemma to_bool_high v : bool_eq_int (to_bool v) HIGH = negb (v =? 0).
Proof. unfold bool_eq_int, to_bool, HIGH. destruct (v =? 0); reflexivity. Qed.

Lemma leads_off_true env t :
  lead_off env ECG_LO_PLUS_PIN t \/ lead_off env ECG_LO_MINUS_PIN t ->
  leads_off env t = true.
Proof.
  unfold lead_off, leads_off, LOW. rewrite !to_bool_high.
  intros [H | H]; apply Z.eqb_neq in H; rewrite H; cbn;
    [reflexivity | apply orb_true_r].
Qed.

Lemma leads_off_false env t :
  gpio env ECG_LO_PLUS_PIN t = LOW -> gpio env ECG_LO_MINUS_PIN t = LOW ->
  leads_off env t = false.
Proof.
  unfold leads_off. rewrite !to_bool_high. intros -> ->. reflexivity.
Qed.

(** Arithmetic of the machine integers. *)

Lemma wrap32_small z : - 2 ^ 31 <= z < 2 ^ 31 -> wrap32 z = z.
Proof.
  intros H. unfold wrap32. rewrite Z.mod_small by lia. lia.
Qed.

Lemma uwrap32_small z : 0 <= z < 2 ^ 32 -> uwrap32 z = z.
Proof. intros H. unfold uwrap32. apply Z.mod_small; lia. Qed.

(** On the 12-bit input domain no intermediate result of [map] leaves the
    [long] range, and the result is the truncated linear interpolation. *)
Lemma map_adc raw lo hi :
  0 <= raw <= 4095 -> 0 <= lo <= hi -> hi <= 1000 ->
  map raw 0 4095 lo hi = raw * (hi - lo) / 4095 + lo /\
  lo <= map raw 0 4095 lo hi <= hi.
Proof.
  intros Hraw Hlo Hhi. unfold map.
  change (4095 - 0) with 4095.
  rewrite (wrap32_small 4095) by lia.
  change (4095 =? 0) with false. cbv iota.
  rewrite (wrap32_small (hi - lo)) by lia.
  rewrite (wrap32_small (raw - 0)) by lia.
  rewrite Z.sub_0_r.
  rewrite (wrap32_small (raw * (hi - lo))) by nia.
  rewrite Z.quot_div_nonneg by nia.
  assert (Hq : 0 <= raw * (hi - lo) / 4095 <= hi - lo).
  { split.
    - apply Z.div_pos; nia.
    - apply Z.div_le_upper_bound; nia. }
  rewrite (wrap32_small (raw * (hi - lo) / 4095)) by lia.
  rewrite wrap32_small by lia.
  split; lia.
Qed.

Lemma plausible_spec lo hi raw :
  (lo <= raw <= hi -> plausible lo hi raw = raw) /\
  (~ lo <= raw <= hi -> plausible lo hi raw = 0).
Proof.
  unfold plausible.
  destruct (Z.ltb_spec raw lo), (Z.gtb_spec raw hi); cbn; split; intros;
    solve [reflexivity | lia].
Qed.

(** ** Calls, and the closed forms of the two passes *)

Lemma wp_call (m : Sketch unit) Q w : Q tt (run_sketch m w) -> wp m Q w.
Proof. unfold wp, run_sketch. destruct (fst (m w)). exact (fun H => H). Qed.

Lemma wp_readAllSensors env Q w :
  Q tt (sampled env w) -> wp (readAllSensors env) Q w.
Proof. intros H. apply wp_call. rewrite readAllSensors_run. exact H. Qed.

Lemma sendVitalData_run env w :
  run_sketch (Serial.sendVitalData env) w =
  with_trace (EvSerialRecord (serial_record env w) :: trace w) w.
Proof. reflexivity. Qed.

Lemma wp_weaken {A : Type} (m : Sketch A) (Q1 Q2 : A -> World -> Prop) w :
  wp m Q1 w -> (forall a w', Q1 a w' -> Q2 a w') -> wp m Q2 w.
Proof. unfold wp. intros H HQ. apply HQ, H. Qed.

Lemma link_step_refl bound w : 0 <= bound -> link_step bound w w.
Proof. unfold link_step. intuition lia. Qed.

Lemma link_step_trans b1 b2 w1 w2 w3 :
  link_step b1 w1 w2 -> link_step b2 w2 w3 -> link_step (b1 + b2) w1 w3.
Proof. unfold link_step. intuition (try congruence; try lia). Qed.

Lemma link_step_weaken b1 b2 w w' :
  b1 <= b2 -> link_step b1 w w' -> link_step b2 w w'.
Proof. unfold link_step. intuition lia. Qed.

Ltac wp_step :=
  lazymatch goal with
  | |- wp (readAllSensors _) _ _ =>
      apply wp_readAllSensors; unfold sampled; cbv beta; wsimpl
  | |- wp (Serial.sendVitalData _) _ _ =>
      apply wp_call; rewrite sendVitalData_run; cbv beta; wsimpl
  | |- _ => wp_prim
  end.

Lemma serial_loop_run env w :
  run_sketch (Serial.loop env) w = serial_pass env w.
Proof.
  apply wp_run. unfold Serial.loop, spend_busy.
  destruct_world w. repeat wp_step.
  all: unfold serial_pass, read_due, pox_updated, sampled; wsimpl.
  all: rewrite_tests; reflexivity.
Qed.

Lemma sendVitalDataToAPI_run env w :
  run_sketch (WiFi.sendVitalDataToAPI env) w =
  if wifiConnected w then posted env w else w.
Proof.
  apply wp_run. unfold WiFi.sendVitalDataToAPI, posted, api_code, api_document.
  destruct_world w. destruct wifi; wp_steps; try discriminate.
  all: wsimpl; rewrite_tests; reflexivity.
Qed.

Lemma run_if (c : bool) (m1 m2 : Sketch unit) w :
  run_sketch (if c then m1 else m2) w =
  if c then run_sketch m1 w else run_sketch m2 w.
Proof. destruct c; reflexivity. Qed.

Lemma wifi_loop_phases env w :
  run_sketch (WiFi.loop env) w =
  let currentTime := uwrap32 (clock w) in
  let w1 :=
    run_sketch
      (if negb (is_WL_CONNECTED (WiFi_status env (clock w))) then
         modify (with_wifiConnected false) ;;
         Serial_println LogWiFiLost ;;
         WiFi.connectToWiFi env
       else skip) w in
  let w2 :=
    run_sketch
      (if read_due currentTime w1 then
         readAllSensors env ;; modify (with_lastReadTime currentTime)
       else skip) w1 in
  let w3 :=
    run_sketch
      (if send_due currentTime w2 then
         WiFi.sendVitalDataToAPI env ;; modify (with_lastSendTime currentTime)
       else skip) w2 in
  let w4 := run_sketch (if poxConnected w3 then pox_update else skip) w3 in
  let w5 := with_clock (clock w4 + 10) w4 in
  with_clock (clock w5 + Z.of_N (busy env (clock w5))) w5.
Proof. reflexivity. Qed.

Lemma wifi_loop_run env w :
  run_sketch (WiFi.loop env) w = wifi_pass env w.
Proof.
  rewrite wifi_loop_phases. unfold wifi_pass, wifi_rest. cbv zeta.
  set (currentTime := uwrap32 (clock w)).
  assert (H1 : run_sketch
      (if negb (is_WL_CONNECTED (WiFi_status env (clock w))) then
         modify (with_wifiConnected false) ;;
         Serial_println LogWiFiLost ;;
         WiFi.connectToWiFi env
       else skip) w = link_checked env w).
  { unfold link_checked.
    destruct (is_WL_CONNECTED (WiFi_status env (clock w))); reflexivity. }
  rewrite H1. clear H1. set (w1 := link_checked env w).
  assert (H2 : run_sketch
      (if read_due currentTime w1 then
         readAllSensors env ;; modify (with_lastReadTime currentTime)
       else skip) w1 = wifi_sampled env currentTime w1).
  { unfold wifi_sampled. destruct (read_due currentTime w1); [| reflexivity].
    change (with_lastReadTime currentTime (run_sketch (readAllSensors env) w1) =
            with_lastReadTime currentTime (sampled env w1)).
    rewrite readAllSensors_run. reflexivity. }
  rewrite H2. clear H2. set (w2 := wifi_sampled env currentTime w1).
  assert (H3 : run_sketch
      (if send_due currentTime w2 then
         WiFi.sendVitalDataToAPI env ;; modify (with_lastSendTime currentTime)
       else skip) w2 = wifi_published env currentTime w2).
  { unfold wifi_published.
    destruct (send_due currentTime w2) eqn:Hdue; [| reflexivity].
    change (with_lastSendTime currentTime
              (run_sketch (WiFi.sendVitalDataToAPI env) w2) =
            with_lastSendTime currentTime (posted env w2)).
    rewrite sendVitalDataToAPI_run.
    unfold send_due in Hdue. apply andb_prop in Hdue.
    destruct Hdue as [-> _]. reflexivity. }
  rewrite H3. clear H3. set (w3 := wifi_published env currentTime w2).
  assert (H4 : run_sketch (if poxConnected w3 then pox_update else skip) w3 =
               pox_updated w3).
  { unfold pox_updated. destruct (poxConnected w3); reflexivity. }
  rewrite H4. reflexivity.
Qed.

(** ** The reconnection loop *)

Section WiFiLink.
Variable env : Env.

Lemma connect_wait_spec fuel :
  forall attempts w,
    0 <= attempts <= 20 ->
    wp (WiFi.connect_wait env fuel attempts)
       (fun _ w' =>
          link_step (500 * (20 - attempts)) w w' /\
          wifiConnected w' = wifiConnected w) w.
Proof.
  induction fuel as [| fuel IH]; intros attempts w Ha.
  - apply wp_ret. split; [apply link_step_refl; lia | reflexivity].
  - cbn [WiFi.connect_wait]. unfold WiFi_status_.
    destruct_world w. wp_steps.
    + apply andb_prop in Heqb. destruct Heqb as [_ Hlt].
      apply Z.ltb_lt in Hlt.
      rewrite (wrap32_small (attempts + 1)) by lia.
      eapply wp_weaken; [apply IH; lia |].
      cbv beta. intros _ w' [Hstep Hwifi]. split; [| exact Hwifi].
      eapply link_step_weaken;
        [| eapply link_step_trans; [| exact Hstep]].
      2: { instantiate (1 := 500). unfold link_step. wsimpl.
           cbn [snapshots records posts]. intuition lia. }
      lia.
    + split; [apply link_step_refl; lia | reflexivity].
Qed.

Lemma connectToWiFi_spec w :
  let w' := run_sketch (WiFi.connectToWiFi env) w in
  link_step 10000 w w' /\
  wifiConnected w' = is_WL_CONNECTED (WiFi_status env (clock w')).
Proof.
  apply wp_run. unfold WiFi.connectToWiFi, WiFi_status_.
  wp_prim. wp_prim. wp_prim. wp_prim. wp_prim.
  eapply wp_weaken; [apply connect_wait_spec; lia |].
  cbv beta. intros _ w1 [Hstep Hwifi].
  assert (Hw : link_step 10000 w w1).
  { eapply link_step_weaken; [| eapply link_step_trans; [| exact Hstep]].
    2: { instantiate (1 := 0). destruct_world w. unfold link_step. wsimpl.
         cbn [snapshots records posts]. intuition lia. }
    lia. }
  clear Hstep Hwifi.
  destruct_world w1. wp_steps; wsimpl; rewrite_tests.
  all: split; [| reflexivity].
  all: unfold link_step in *; wsimpl; cbn [snapshots records posts];
    intuition lia.
Qed.

End WiFiLink.

(** *** Claims about one sampling tick *)

(** C2. With the pulse oximeter present, a tick publishes the raw heart rate
    when it lies in [30,200] and 0 otherwise, and the raw oxygen saturation
    when it lies in [70,100] and 0 otherwise. *)
Theorem pulse_oximeter_plausibility_filter env w :
  poxConnected w = true ->
  let v := vitals (run_sketch (readAllSensors env) w) in
  let hr := pox_getHeartRate env (clock w) in
  let sp := pox_getSpO2 env (clock w) in
  (30 <= hr <= 200 -> heartRate v = hr) /\
  (~ 30 <= hr <= 200 -> heartRate v = 0) /\
  (70 <= sp <= 100 -> oxygenSaturation v = sp) /\
  (~ 70 <= sp <= 100 -> oxygenSaturation v = 0).
Proof.
  intros Hpox v hr sp. subst v.
  rewrite readAllSensors_vitals. unfold snapshot_of. wsimpl.
  rewrite Hpox.
  destruct (plausible_spec 30 200 hr), (plausible_spec 70 100 sp).
  auto.
Qed.

(** C4. When either lead-off pin signals a detached electrode, the tick's
    snapshot has [ecgValue = 0] and [ecgLeadsConnected = false] whatever the
    analog channel holds, and the tick does not read the analog ECG channel;
    when both pins read LOW, [ecgLeadsConnected = true]. *)
Theorem ecg_leads_off_forces_zero env w :
  let w' := run_sketch (readAllSensors env) w in
  (lead_off env ECG_LO_PLUS_PIN (clock w) \/
   lead_off env ECG_LO_MINUS_PIN (clock w) ->
   ecgValue (vitals w') = 0 /\
   ecgLeadsConnected (vitals w') = false /\
   ~ In (EvAnalogRead ECG_OUTPUT_PIN) (new_events w w')) /\
  (gpio env ECG_LO_PLUS_PIN (clock w) = LOW ->
   gpio env ECG_LO_MINUS_PIN (clock w) = LOW ->
   ecgLeadsConnected (vitals w') = true).
Proof.
  intros w'. subst w'.
  rewrite readAllSensors_vitals, readAllSensors_new_events.
  unfold snapshot_of, sampler_accesses. wsimpl. split.
  - intros Hoff. rewrite (leads_off_true _ _ Hoff). cbn [negb app].
    repeat split.
    intros Hin. cbn in Hin.
    destruct (poxConnected w), (mlxConnected w); cbn in Hin;
      repeat (destruct Hin as [Hin | Hin]; [discriminate Hin |]);
      exact Hin.
  - intros Hp Hm. rewrite (leads_off_false _ _ Hp Hm). reflexivity.
Qed.

(** C5. On every snapshot a tick generates, the diastolic value is the
    systolic value minus 40, as integers (the subtraction cannot overflow
    because the systolic value comes from the 12-bit ADC through [map]); the
    tick reads no analog channel besides the blood-pressure, respiration and
    ECG inputs, so the diastolic value has no source of its own. *)
Theorem diastolic_is_systolic_minus_40 env w :
  adc_in_range env ->
  let w' := run_sketch (readAllSensors env) w in
  bpDiastolic (vitals w') = bpSystolic (vitals w') - 40 /\
  (forall pin,
     In (EvAnalogRead pin) (new_events w w') ->
     pin = BP_SENSOR_PIN \/ pin = RESP_SENSOR_PIN \/ pin = ECG_OUTPUT_PIN).
Proof.
  intros Hadc w'. subst w'.
  rewrite readAllSensors_vitals, readAllSensors_new_events. split.
  - unfold snapshot_of. wsimpl.
    destruct (map_adc (adc env BP_SENSOR_PIN (clock w)) 80 180) as [_ Hr];
      try lia; [apply Hadc |].
    apply wrap32_small. lia.
  - intros pin Hin. unfold sampler_accesses in Hin.
    destruct (leads_off env (clock w)), (poxConnected w), (mlxConnected w);
      cbn in Hin;
      repeat (destruct Hin as [Hin | Hin];
              [try discriminate Hin; injection Hin as <-; auto |]);
      contradiction.
Qed.

(** C7. The blood-pressure proxy remaps the ADC domain [0,4095] linearly onto
    [80,180]: a raw 0 gives 80/40, a raw 4095 gives 180/140, and every raw
    value in the domain lands in [80,180]. *)
Theorem blood_pressure_remap_endpoints env w :
  let raw := adc env BP_SENSOR_PIN (clock w) in
  let v := vitals (run_sketch (readAllSensors env) w) in
  (raw = 0 -> bpSystolic v = 80 /\ bpDiastolic v = 40) /\
  (raw = 4095 -> bpSystolic v = 180 /\ bpDiastolic v = 140) /\
  (0 <= raw <= 4095 ->
   bpSystolic v = raw * 100 / 4095 + 80 /\ 80 <= bpSystolic v <= 180).
Proof.
  intros raw v. subst v.
  rewrite readAllSensors_vitals. unfold snapshot_of. wsimpl. fold raw.
  split; [| split].
  - intros ->. split; reflexivity.
  - intros ->. split; reflexivity.
  - intros Hraw.
    destruct (map_adc raw 80 180) as [He Hr]; try lia.
    rewrite He in *. split; [reflexivity | exact Hr].
Qed.

(** C10. When both lead-off pins read LOW, the snapshot's [ecgValue] is the
    analog reading itself: the ECG channel passes through no range filter. *)
Theorem ecg_value_is_raw_when_connected env w :
  gpio env ECG_LO_PLUS_PIN (clock w) = LOW ->
  gpio env ECG_LO_MINUS_PIN (clock w) = LOW ->
  ecgValue (vitals (run_sketch (readAllSensors env) w)) =
  adc env ECG_OUTPUT_PIN (clock w).
Proof.
  intros Hp Hm.
  rewrite readAllSensors_vitals. unfold snapshot_of. wsimpl.
  rewrite (leads_off_false _ _ Hp Hm). reflexivity.
Qed.

(** ** One pass of each sketch, observably *)

Lemma link_checked_spec env w :
  let w1 := link_checked env w in
  link_step 10000 w w1 /\
  (is_WL_CONNECTED (WiFi_status env (clock w)) = true -> w1 = w) /\
  (is_WL_CONNECTED (WiFi_status env (clock w)) = false ->
   wifiConnected w1 = is_WL_CONNECTED (WiFi_status env (clock w1))).
Proof.
  unfold link_checked.
  destruct (is_WL_CONNECTED (WiFi_status env (clock w))).
  - repeat split; try discriminate; try lia.
  - destruct (connectToWiFi_spec env
                (with_trace (EvLog LogWiFiLost :: trace w)
                   (with_wifiConnected false w))) as [Hstep Hflag].
    split; [| split; [discriminate | intros _; exact Hflag]].
    destruct_world w. unfold link_step in *. wsimpl.
    cbn [snapshots records posts] in Hstep. exact Hstep.
Qed.

Ltac split_tests :=
  repeat (match goal with
          | |- context [if ?c then _ else _] =>
              lazymatch c with
              | context [if _ then _ else _] => fail
              | _ => destruct c eqn:?
              end
          end; wsimpl).

Lemma snapshots_accesses env w tr :
  snapshots (sampler_accesses env w ++ tr) = snapshots tr.
Proof.
  unfold sampler_accesses.
  destruct (leads_off env (clock w)), (poxConnected w), (mlxConnected w);
    reflexivity.
Qed.

Lemma posts_accesses env w tr :
  posts (sampler_accesses env w ++ tr) = posts tr.
Proof.
  unfold sampler_accesses.
  destruct (leads_off env (clock w)), (poxConnected w), (mlxConnected w);
    reflexivity.
Qed.

Lemma records_accesses env w tr :
  records (sampler_accesses env w ++ tr) = records tr.
Proof.
  unfold sampler_accesses.
  destruct (leads_off env (clock w)), (poxConnected w), (mlxConnected w);
    reflexivity.
Qed.

(** What the pass does, after the link check, to the observable state. *)
Lemma wifi_rest_summary env currentTime w1 :
  let w2 := wifi_sampled env currentTime w1 in
  let w' := wifi_rest env currentTime w1 in
  let answered := clock w1 + Z.of_N (http_latency env (clock w1)) in
  let spent :=
    (if send_due currentTime w2
     then if api_code env w2 >? 0 then answered + 50 else answered
     else clock w1) + 10 in
  snapshots (trace w') =
    ((if read_due currentTime w1 then [snapshot_of env w1] else [])
       ++ snapshots (trace w1))%list /\
  posts (trace w') =
    ((if send_due currentTime w2
      then [(api_document env w2, api_code env w2)] else [])
       ++ posts (trace w1))%list /\
  records (trace w') = records (trace w1) /\
  vitals w' =
    (if read_due currentTime w1 then snapshot_of env w1 else vitals w1) /\
  lastReadTime w' =
    (if read_due currentTime w1 then currentTime else lastReadTime w1) /\
  lastSendTime w' =
    (if send_due currentTime w2 then currentTime else lastSendTime w1) /\
  mlxConnected w' = mlxConnected w1 /\
  poxConnected w' = poxConnected w1 /\
  wifiConnected w' = wifiConnected w1 /\
  wifiConnected w2 = wifiConnected w1 /\
  vitals w2 = vitals w' /\
  mlxConnected w2 = mlxConnected w1 /\
  poxConnected w2 = poxConnected w1 /\
  clock w' = spent + Z.of_N (busy env spent).
Proof.
  intros w2 w' answered spent. subst spent answered w' w2.
  unfold wifi_rest, wifi_published, wifi_sampled.
  destruct (read_due currentTime w1);
    unfold send_due, pox_updated, posted, sampled;
    destruct_world w1; wsimpl.
  all: split_tests.
  all: cbn [snapshots posts records app].
  all: rewrite ?snapshots_accesses, ?posts_accesses, ?records_accesses.
  all: repeat split; reflexivity.
Qed.

Lemma wifi_pass_link env w :
  link_step 10000 w (link_checked env w) /\
  read_due (uwrap32 (clock w)) (link_checked env w) =
  read_due (uwrap32 (clock w)) w.
Proof.
  destruct (link_checked_spec env w) as [Hstep _]. split; [exact Hstep |].
  unfold read_due. destruct Hstep as (_ & -> & _). reflexivity.
Qed.

Lemma serial_pass_summary env w :
  let currentTime := uwrap32 (clock w) in
  let w' := serial_pass env w in
  let spent := if read_due currentTime w then clock w + 50 else clock w in
  snapshots (trace w') =
    ((if read_due currentTime w then [snapshot_of env w] else [])
       ++ snapshots (trace w))%list /\
  records (trace w') =
    ((if read_due currentTime w then [serial_record env (sampled env w)]
      else []) ++ records (trace w))%list /\
  posts (trace w') = posts (trace w) /\
  vitals w' =
    (if read_due currentTime w then snapshot_of env w else vitals w) /\
  lastReadTime w' =
    (if read_due currentTime w then currentTime else lastReadTime w) /\
  mlxConnected w' = mlxConnected w /\
  poxConnected w' = poxConnected w /\
  clock w' = spent + Z.of_N (busy env spent).
Proof.
  intros currentTime w' spent. subst spent w'. unfold serial_pass.
  fold currentTime. clearbody currentTime.
  destruct (read_due currentTime w);
    unfold pox_updated, sampled; destruct_world w; wsimpl.
  all: split_tests.
  all: cbn [snapshots posts records app].
  all: rewrite ?snapshots_accesses, ?posts_accesses, ?records_accesses.
  all: repeat split; reflexivity.
Qed.

(** ** Sessions *)

Lemma serial_passes_ind env (P : World -> Prop) :
  (forall w, P w -> P (run_sketch (Serial.loop env) w)) ->
  forall n w, P w -> P (Serial.passes env n w).
Proof.
  intros Hstep n. induction n as [| n IH]; intros w Hw; cbn;
    [exact Hw | apply IH, Hstep, Hw].
Qed.

Lemma wifi_passes_ind env (P : World -> Prop) :
  (forall w, P w -> P (run_sketch (WiFi.loop env) w)) ->
  forall n w, P w -> P (WiFi.passes env n w).
Proof.
  intros Hstep n. induction n as [| n IH]; intros w Hw; cbn;
    [exact Hw | apply IH, Hstep, Hw].
Qed.

Lemma wait_serial_run polls w :
  run_sketch (Serial.wait_serial polls) w =
  with_clock (clock w + 10 * Z.of_nat polls) w.
Proof.
  revert w. induction polls as [| polls IH]; intros w.
  - change (Z.of_nat 0) with 0. rewrite Z.mul_0_r, Z.add_0_r.
    destruct_world w. reflexivity.
  - change (run_sketch (Serial.wait_serial (S polls)) w)
      with (run_sketch (Serial.wait_serial polls)
              (with_clock (clock w + 10) w)).
    rewrite IH. destruct_world w. unfold with_clock. wsimpl.
    replace (now + 10 + 10 * Z.of_nat polls)
      with (now + 10 * Z.of_nat (S polls)) by lia.
    reflexivity.
Qed.

Lemma serial_setup_spec env :
  let w := run_sketch (Serial.setup env) boot in
  mlxConnected w = mlx_begin env /\
  poxConnected w = pox_begin env /\
  vitals w = vitals_zero /\
  snapshots (trace w) = [] /\
  records (trace w) = [] /\
  posts (trace w) = [] /\
  0 <= clock w.
Proof.
  intros w. subst w.
  change (run_sketch (Serial.setup env) boot)
    with (run_sketch
            (LED_write LOW ;;
             probe (mlx_begin env) with_mlxConnected "MLX90614" ;;
             probe (pox_begin env) with_poxConnected "MAX30100" ;;
             Serial_println LogReady)
            (run_sketch (Serial.wait_serial (serial_wait env)) boot)).
  rewrite wait_serial_run. unfold boot, probe. wsimpl.
  destruct (mlx_begin env), (pox_begin env); unfold run_sketch;
    cbn -[Z.of_nat Z.mul Z.add]; repeat split; lia.
Qed.

Lemma wifi_setup_spec env :
  let w := run_sketch (WiFi.setup env) boot in
  mlxConnected w = mlx_begin env /\
  poxConnected w = pox_begin env /\
  vitals w = vitals_zero /\
  snapshots (trace w) = [] /\
  records (trace w) = [] /\
  posts (trace w) = [] /\
  0 <= clock w.
Proof.
  intros w. subst w.
  change (run_sketch (WiFi.setup env) boot)
    with (run_sketch
            (probe (mlx_begin env) with_mlxConnected "MLX90614" ;;
             probe (pox_begin env) with_poxConnected "MAX30100" ;;
             Serial_println LogReady)
            (run_sketch (WiFi.connectToWiFi env)
               (with_led false (with_clock 1000 boot)))).
  destruct (connectToWiFi_spec env (with_led false (with_clock 1000 boot)))
    as [Hstep _].
  set (w1 := run_sketch (WiFi.connectToWiFi env) _) in *.
  clearbody w1. unfold link_step in Hstep. cbn in Hstep.
  destruct Hstep as (Hv & _ & _ & Hmlx & Hpox & Hclk & Hsn & Hrec & Hpo).
  destruct_world w1. wsimpl. unfold probe.
  destruct (mlx_begin env), (pox_begin env); cbn;
    repeat split; try assumption; try reflexivity; lia.
Qed.

(** ** An absent sensor stays absent *)

Section AbsentSensor.

Variable flag : World -> bool.
Variable zeroed : VitalData -> Prop.
Variable name : string.

Hypothesis flag_frame :
  forall w w',
    mlxConnected w' = mlxConnected w -> poxConnected w' = poxConnected w ->
    flag w' = flag w.
Hypothesis zeroed_snapshot :
  forall env w, flag w = false -> zeroed (snapshot_of env w).
Hypothesis absent_serial :
  forall env w, flag w = false -> reports_absent name (serial_record env w).
Hypothesis absent_api :
  forall env w, flag w = false -> reports_absent name (api_document env w).

Lemma serial_pass_absent env w :
  reported_absent flag zeroed name w ->
  reported_absent flag zeroed name (run_sketch (Serial.loop env) w).
Proof.
  intros (Hf & Hv & Hs & Hr & Hp). rewrite serial_loop_run.
  destruct (serial_pass_summary env w)
    as (Es & Er & Ep & Ev & _ & Emlx & Epox & _).
  unfold reported_absent. rewrite Es, Er, Ep, Ev.
  rewrite (flag_frame _ _ Emlx Epox).
  assert (Hf' : flag (sampled env w) = false).
  { rewrite <- Hf. apply flag_frame; reflexivity. }
  destruct (read_due (uwrap32 (clock w)) w); cbn [app];
    repeat split; auto.
Qed.

Lemma wifi_pass_absent env w :
  reported_absent flag zeroed name w ->
  reported_absent flag zeroed name (run_sketch (WiFi.loop env) w).
Proof.
  intros (Hf & Hv & Hs & Hr & Hp). rewrite wifi_loop_run. unfold wifi_pass.
  destruct (wifi_pass_link env w) as [Hstep Hdue].
  set (currentTime := uwrap32 (clock w)) in *.
  set (w1 := link_checked env w) in *.
  destruct (wifi_rest_summary env currentTime w1)
    as (Es & Ep & Er & Ev & _ & _ & Emlx & Epox & _ & _ & _ & Emlx2 & Epox2
        & _).
  destruct Hstep as (Lv & _ & _ & Lmlx & Lpox & _ & Ls & Lr & Lp).
  assert (Hf1 : flag w1 = false).
  { rewrite <- Hf. apply flag_frame; assumption. }
  assert (Hf2 : flag (wifi_sampled env currentTime w1) = false).
  { rewrite <- Hf1. apply flag_frame; assumption. }
  unfold reported_absent. rewrite Es, Ep, Er, Ev, Ls, Lr, Lp, Lv.
  rewrite (flag_frame _ _ Emlx Epox).
  destruct (read_due currentTime w1),
    (send_due currentTime (wifi_sampled env currentTime w1)); cbn [app];
    repeat split; auto.
  all: apply Forall_cons; [cbn [fst]; auto | exact Hp].
Qed.

Lemma serial_session_absent env n :
  flag (run_sketch (Serial.setup env) boot) = false ->
  zeroed vitals_zero ->
  reported_absent flag zeroed name (Serial.session env n).
Proof.
  intros Hf Hz. unfold Serial.session.
  apply serial_passes_ind; [apply serial_pass_absent |].
  destruct (serial_setup_spec env) as (_ & _ & Hv & Hs & Hr & Hp & _).
  unfold reported_absent. rewrite Hv, Hs, Hr, Hp. repeat split; auto.
Qed.

Lemma wifi_session_absent env n :
  flag (run_sketch (WiFi.setup env) boot) = false ->
  zeroed vitals_zero ->
  reported_absent flag zeroed name (WiFi.session env n).
Proof.
  intros Hf Hz. unfold WiFi.session.
  apply wifi_passes_ind; [apply wifi_pass_absent |].
  destruct (wifi_setup_spec env) as (_ & _ & Hv & Hs & Hr & Hp & _).
  unfold reported_absent. rewrite Hv, Hs, Hr, Hp. repeat split; auto.
Qed.

End AbsentSensor.

Lemma serial_passes_flags env n w :
  mlxConnected (Serial.passes env n w) = mlxConnected w /\
  poxConnected (Serial.passes env n w) = poxConnected w.
Proof.
  apply (serial_passes_ind env
           (fun w' => mlxConnected w' = mlxConnected w /\
                      poxConnected w' = poxConnected w)); [| split; reflexivity].
  intros w' [Hm Hp]. rewrite serial_loop_run.
  destruct (serial_pass_summary env w') as (_ & _ & _ & _ & _ & -> & -> & _).
  split; assumption.
Qed.

Lemma wifi_passes_flags env n w :
  mlxConnected (WiFi.passes env n w) = mlxConnected w /\
  poxConnected (WiFi.passes env n w) = poxConnected w.
Proof.
  apply (wifi_passes_ind env
           (fun w' => mlxConnected w' = mlxConnected w /\
                      poxConnected w' = poxConnected w)); [| split; reflexivity].
  intros w' [Hm Hp]. rewrite wifi_loop_run. unfold wifi_pass.
  destruct (wifi_pass_link env w') as [Hstep _].
  destruct (wifi_rest_summary env (uwrap32 (clock w')) (link_checked env w'))
    as (_ & _ & _ & _ & _ & _ & -> & -> & _).
  destruct Hstep as (_ & _ & _ & -> & -> & _). split; assumption.
Qed.

Lemma sensors_key_serial env w :
  jget2 "sensors" "mlx90614" (serial_record env w)
    = Some (JBool (mlxConnected w)) /\
  jget2 "sensors" "max30100" (serial_record env w)
    = Some (JBool (poxConnected w)).
Proof. split; reflexivity. Qed.

Lemma sensors_key_api env w :
  jget2 "sensors" "mlx90614" (api_document env w)
    = Some (JBool (mlxConnected w)) /\
  jget2 "sensors" "max30100" (api_document env w)
    = Some (JBool (poxConnected w)).
Proof. split; reflexivity. Qed.

(** C3. A capability-gated sensor that does not answer its probe in
    [setup] is reported absent for the whole session, in both sketches: after
    any number of passes its flag is false, the current and every past
    snapshot hold the zero sentinel in its fields, and every published record
    carries [false] under its key in [sensors].  No pass of [loop] changes
    either capability flag. *)
Theorem absent_sensor_reported_zero_all_session env n :
  (pox_begin env = false ->
   reported_absent poxConnected pox_zeroed "max30100" (Serial.session env n) /\
   reported_absent poxConnected pox_zeroed "max30100" (WiFi.session env n)) /\
  (mlx_begin env = false ->
   reported_absent mlxConnected temperature_zeroed "mlx90614"
     (Serial.session env n) /\
   reported_absent mlxConnected temperature_zeroed "mlx90614"
     (WiFi.session env n)) /\
  (forall w,
     mlxConnected (Serial.passes env n w) = mlxConnected w /\
     poxConnected (Serial.passes env n w) = poxConnected w /\
     mlxConnected (WiFi.passes env n w) = mlxConnected w /\
     poxConnected (WiFi.passes env n w) = poxConnected w).
Proof.
  assert (Hfp : forall w w' : World,
             mlxConnected w' = mlxConnected w ->
             poxConnected w' = poxConnected w ->
             poxConnected w' = poxConnected w) by auto.
  assert (Hfm : forall w w' : World,
             mlxConnected w' = mlxConnected w ->
             poxConnected w' = poxConnected w ->
             mlxConnected w' = mlxConnected w) by auto.
  assert (Hzp : forall e w, poxConnected w = false ->
                            pox_zeroed (snapshot_of e w)).
  { intros e w H. unfold pox_zeroed, snapshot_of. wsimpl. rewrite H.
    split; reflexivity. }
  assert (Hzm : forall e w, mlxConnected w = false ->
                            temperature_zeroed (snapshot_of e w)).
  { intros e w H. unfold temperature_zeroed, snapshot_of. wsimpl.
    rewrite H. reflexivity. }
  assert (Hsp : forall e w, poxConnected w = false ->
                            reports_absent "max30100" (serial_record e w)).
  { intros e w H. unfold reports_absent.
    rewrite (proj2 (sensors_key_serial e w)), H. reflexivity. }
  assert (Hsm : forall e w, mlxConnected w = false ->
                            reports_absent "mlx90614" (serial_record e w)).
  { intros e w H. unfold reports_absent.
    rewrite (proj1 (sensors_key_serial e w)), H. reflexivity. }
  assert (Hap : forall e w, poxConnected w = false ->
                            reports_absent "max30100" (api_document e w)).
  { intros e w H. unfold reports_absent.
    rewrite (proj2 (sensors_key_api e w)), H. reflexivity. }
  assert (Ham : forall e w, mlxConnected w = false ->
                            reports_absent "mlx90614" (api_document e w)).
  { intros e w H. unfold reports_absent.
    rewrite (proj1 (sensors_key_api e w)), H. reflexivity. }
  assert (Hz0 : pox_zeroed vitals_zero) by (split; reflexivity).
  assert (Ht0 : temperature_zeroed vitals_zero) by reflexivity.
  destruct (serial_setup_spec env) as (Smlx & Spox & _).
  destruct (wifi_setup_spec env) as (Wmlx & Wpox & _).
  split; [| split].
  - intros Hpox. rewrite <- Spox in Hpox at 1. split.
    + exact (serial_session_absent _ _ _ Hfp Hzp Hsp env n Hpox Hz0).
    + rewrite Spox, <- Wpox in Hpox.
      exact (wifi_session_absent _ _ _ Hfp Hzp Hap env n Hpox Hz0).
  - intros Hmlx. rewrite <- Smlx in Hmlx at 1. split.
    + exact (serial_session_absent _ _ _ Hfm Hzm Hsm env n Hmlx Ht0).
    + rewrite Smlx, <- Wmlx in Hmlx.
      exact (wifi_session_absent _ _ _ Hfm Hzm Ham env n Hmlx Ht0).
  - intros w.
    destruct (serial_passes_flags env n w) as [H1 H2].
    destruct (wifi_passes_flags env n w) as [H3 H4].
    repeat split; assumption.
Qed.

(** ** Timestamps *)

Lemma increasing_cons v l :
  increasing_stamps l ->
  Forall (fun u => timestamp u < timestamp v) l ->
  increasing_stamps (v :: l).
Proof.
  intros Hl Hv. destruct l as [| u l]; [constructor |].
  constructor; [| exact Hl].
  unfold stamped_after. inversion Hv; assumption.
Qed.

Lemma increasing_stamps_check l :
  increasing_stamps l -> increasing_stampsb l = true.
Proof.
  induction 1 as [| v | later earlier l Hafter _ IH]; try reflexivity.
  change (increasing_stampsb (later :: earlier :: l))
    with ((timestamp earlier <? timestamp later)
          && increasing_stampsb (earlier :: l)).
  rewrite IH. unfold stamped_after in Hafter. apply Z.ltb_lt in Hafter.
  rewrite Hafter. reflexivity.
Qed.

Lemma stamps_before_later (c c' : Z) l :
  c <= c' ->
  Forall (fun v => timestamp v < c) l -> Forall (fun v => timestamp v < c') l.
Proof.
  intros Hc Hl. eapply Forall_impl; [| exact Hl]. cbv beta. intros; lia.
Qed.

Lemma serial_pass_clock env w :
  clock w <= clock (run_sketch (Serial.loop env) w).
Proof.
  rewrite serial_loop_run.
  destruct (serial_pass_summary env w) as (_ & _ & _ & _ & _ & _ & _ & ->).
  destruct (read_due (uwrap32 (clock w)) w); lia.
Qed.

Lemma wifi_pass_clock env w :
  clock w + 10 <= clock (run_sketch (WiFi.loop env) w).
Proof.
  rewrite wifi_loop_run. unfold wifi_pass.
  destruct (wifi_pass_link env w) as [Hstep _].
  destruct (wifi_rest_summary env (uwrap32 (clock w)) (link_checked env w))
    as (_ & _ & _ & _ & _ & _ & _ & _ & _ & _ & _ & _ & _ & ->).
  destruct Hstep as (_ & _ & _ & _ & _ & Hclk & _).
  destruct (send_due _ _); [destruct (api_code _ _ >? 0) |]; lia.
Qed.

Lemma serial_passes_clock env n :
  forall w, clock w <= clock (Serial.passes env n w).
Proof.
  induction n as [| n IH]; intros w; cbn [Serial.passes]; [lia |].
  specialize (IH (run_sketch (Serial.loop env) w)).
  pose proof (serial_pass_clock env w). lia.
Qed.

Lemma wifi_passes_clock env n :
  forall w, clock w <= clock (WiFi.passes env n w).
Proof.
  induction n as [| n IH]; intros w; cbn [WiFi.passes]; [lia |].
  specialize (IH (run_sketch (WiFi.loop env) w)).
  pose proof (wifi_pass_clock env w). lia.
Qed.

Lemma serial_pass_well_stamped env w :
  well_stamped w ->
  clock (run_sketch (Serial.loop env) w) < 2 ^ 32 ->
  well_stamped (run_sketch (Serial.loop env) w).
Proof.
  intros (H0 & Hinc & Hbefore). rewrite serial_loop_run.
  destruct (serial_pass_summary env w) as (Es & _ & _ & _ & _ & _ & _ & Ec).
  cbv zeta in Ec. intros Hlt. unfold well_stamped. rewrite Es, Ec in *.
  clear Es Ec.
  destruct (read_due (uwrap32 (clock w)) w); cbn [app].
  - assert (Hts : timestamp (snapshot_of env w) = clock w).
    { unfold snapshot_of. wsimpl. apply uwrap32_small. lia. }
    split; [lia | split].
    + apply increasing_cons; [exact Hinc |]. rewrite Hts. exact Hbefore.
    + constructor; [rewrite Hts; lia |].
      eapply stamps_before_later; [| exact Hbefore]. lia.
  - split; [lia | split; [exact Hinc |]].
    eapply stamps_before_later; [| exact Hbefore]. lia.
Qed.

Lemma wifi_pass_well_stamped env w :
  well_stamped w ->
  clock (run_sketch (WiFi.loop env) w) < 2 ^ 32 ->
  well_stamped (run_sketch (WiFi.loop env) w).
Proof.
  intros (H0 & Hinc & Hbefore). rewrite wifi_loop_run. unfold wifi_pass.
  destruct (wifi_pass_link env w) as [Hstep Hdue].
  set (currentTime := uwrap32 (clock w)) in *.
  set (w1 := link_checked env w) in *.
  destruct (wifi_rest_summary env currentTime w1)
    as (Es & _ & _ & _ & _ & _ & _ & _ & _ & _ & _ & _ & _ & Ec).
  cbv zeta in Ec. intros Hlt. unfold well_stamped. rewrite Es, Ec in *.
  clear Es Ec.
  destruct Hstep as (_ & _ & _ & _ & _ & Hclk & Hs & _). rewrite Hs.
  set (spent := (if send_due currentTime (wifi_sampled env currentTime w1)
                 then _ else _) + 10) in *.
  assert (Hspent : clock w1 + 10 <= spent).
  { subst spent. destruct (send_due _ _); [destruct (api_code _ _ >? 0) |];
      lia. }
  destruct (read_due currentTime w1); cbn [app].
  - assert (Hts : timestamp (snapshot_of env w1) = clock w1).
    { unfold snapshot_of. wsimpl. apply uwrap32_small. lia. }
    split; [lia | split].
    + apply increasing_cons; [exact Hinc |]. rewrite Hts.
      eapply stamps_before_later; [| exact Hbefore]. lia.
    + constructor; [rewrite Hts; lia |].
      eapply stamps_before_later; [| exact Hbefore]. lia.
  - split; [lia | split; [exact Hinc |]].
    eapply stamps_before_later; [| exact Hbefore]. lia.
Qed.

Lemma serial_passes_well_stamped env n :
  forall w,
    well_stamped w -> clock (Serial.passes env n w) < 2 ^ 32 ->
    well_stamped (Serial.passes env n w).
Proof.
  induction n as [| n IH]; intros w Hw Hlt; cbn [Serial.passes] in *;
    [exact Hw |].
  apply IH; [| exact Hlt]. apply serial_pass_well_stamped; [exact Hw |].
  pose proof (serial_passes_clock env n (run_sketch (Serial.loop env) w)).
  lia.
Qed.

Lemma wifi_passes_well_stamped env n :
  forall w,
    well_stamped w -> clock (WiFi.passes env n w) < 2 ^ 32 ->
    well_stamped (WiFi.passes env n w).
Proof.
  induction n as [| n IH]; intros w Hw Hlt; cbn [WiFi.passes] in *;
    [exact Hw |].
  apply IH; [| exact Hlt]. apply wifi_pass_well_stamped; [exact Hw |].
  pose proof (wifi_passes_clock env n (run_sketch (WiFi.loop env) w)).
  lia.
Qed.

(** C9 (amended). As long as the device has been up for less than 2^32 ms
    (49.7 days), every snapshot is stamped strictly later than the one before
    it, in both sketches. *)
Theorem timestamps_increase_until_millis_wraps env n w :
  well_stamped w ->
  (clock (Serial.passes env n w) < 2 ^ 32 ->
   increasing_stamps (snapshots (trace (Serial.passes env n w)))) /\
  (clock (WiFi.passes env n w) < 2 ^ 32 ->
   increasing_stamps (snapshots (trace (WiFi.passes env n w)))).
Proof.
  intros Hw. split; intros Hlt.
  - apply (serial_passes_well_stamped env n w Hw Hlt).
  - apply (wifi_passes_well_stamped env n w Hw Hlt).
Qed.

(** C9 as stated fails when [millis()] wraps: the sample taken one second
    after a sample stamped 4294966500 is stamped 204. *)
Lemma millis_wraps_after_49_days :
  well_stamped uptime_49_days /\
  ~ increasing_stamps
      (snapshots (trace (Serial.passes steady_env 2 uptime_49_days))).
Proof.
  split.
  - unfold well_stamped, uptime_49_days. cbn.
    repeat split; try lia; repeat constructor.
  - intros H. apply increasing_stamps_check in H.
    assert (E : increasing_stampsb
                  (snapshots
                     (trace (Serial.passes steady_env 2 uptime_49_days)))
                = false) by (vm_compute; reflexivity).
    rewrite E in H. discriminate H.
Qed.

(** ** Publishing *)

Lemma api_document_ext env w w' :
  vitals w' = vitals w -> mlxConnected w' = mlxConnected w ->
  poxConnected w' = poxConnected w ->
  api_document env w' = api_document env w.
Proof.
  intros Hv Hm Hp. unfold api_document, sensor_flags, base_document.
  rewrite Hv, Hm, Hp. reflexivity.
Qed.

Lemma posted_new_events env w :
  new_events w (posted env w) =
  let code := api_code env w in
  [EvLog (LogVitals (vitals w));
   EvLog (if code >? 0 then LogSendOk code else LogSendError code);
   EvHttpPost (api_document env w) code].
Proof.
  apply new_events_app. unfold posted. cbv zeta.
  destruct (api_code env w >? 0); destruct_world w; reflexivity.
Qed.

(** The publish step of one pass: the flag it tests is the one the link
    check left, it issues at most one request, and what it sends is the
    record of the snapshot that is current at the end of the pass. *)
Lemma wifi_pass_publish env w :
  let w' := run_sketch (WiFi.loop env) w in
  wifiConnected w' = wifiConnected (link_checked env w) /\
  (wifiConnected w' = false ->
   posts (trace w') = posts (trace w) /\
   lastSendTime w' = lastSendTime w) /\
  (posts (trace w') = posts (trace w) \/
   exists code,
     posts (trace w') = (api_document env w', code) :: posts (trace w) /\
     lastSendTime w' = uwrap32 (clock w)).
Proof.
  cbv zeta. rewrite wifi_loop_run. unfold wifi_pass.
  destruct (wifi_pass_link env w) as [Hstep _].
  set (currentTime := uwrap32 (clock w)) in *.
  set (w1 := link_checked env w) in *.
  destruct (wifi_rest_summary env currentTime w1)
    as (_ & Ep & _ & _ & _ & Els & Emlx & Epox & Ewifi & Ewifi2 & Ev
        & Emlx2 & Epox2 & _).
  destruct Hstep as (_ & _ & Lls & _ & _ & _ & _ & _ & Lp).
  rewrite Ep, Els, Ewifi, Lp, Lls.
  set (w2 := wifi_sampled env currentTime w1) in *.
  split; [reflexivity | split].
  - intros Hoff. unfold send_due. rewrite Ewifi2, Hoff. cbn.
    split; reflexivity.
  - destruct (send_due currentTime w2); cbn [app]; [right | left; reflexivity].
    exists (api_code env w2). split; [| reflexivity]. f_equal. f_equal.
    symmetry. apply api_document_ext; congruence.
Qed.

(** C6. In the WiFi sketch nothing is posted while the connection flag is
    false: [sendVitalDataToAPI] called with the flag false returns at once
    and leaves the world untouched; a pass of [loop] whose publish step finds
    the flag false (the flag is only written by the link check at the head of
    the pass) issues no request and leaves [lastSendTime] alone; and a pass
    that does post sends the record of the snapshot current in that pass, so
    a skipped snapshot is never sent later. *)
Theorem no_post_while_disconnected env w :
  (wifiConnected w = false ->
   run_sketch (WiFi.sendVitalDataToAPI env) w = w) /\
  (let w' := run_sketch (WiFi.loop env) w in
   wifiConnected w' = wifiConnected (link_checked env w) /\
   (wifiConnected w' = false ->
    posts (trace w') = posts (trace w) /\
    lastSendTime w' = lastSendTime w) /\
   (posts (trace w') = posts (trace w) \/
    exists code,
      posts (trace w') = (api_document env w', code) :: posts (trace w))).
Proof.
  split.
  - intros Hoff. rewrite sendVitalDataToAPI_run, Hoff. reflexivity.
  - cbv zeta.
    destruct (wifi_pass_publish env w) as (Hflag & Hoff & Hsent).
    split; [exact Hflag | split; [exact Hoff |]].
    destruct Hsent as [Hsame | [code [Hpost _]]];
      [left; exact Hsame | right; exists code; exact Hpost].
Qed.

(** C8 (amended). A publish attempt is recorded as successful exactly when
    the transport returns a strictly positive status.  Whatever the status,
    one call issues exactly one request and touches neither the snapshot nor
    the timers; on failure it only logs the error (the LED is left as it
    was).  A pass of [loop] issues at most one request and, once it has
    issued one, restarts the send timer, so no snapshot is sent again. *)
Theorem publish_success_iff_positive_status env w :
  wifiConnected w = true ->
  let w' := run_sketch (WiFi.sendVitalDataToAPI env) w in
  let code := api_code env w in
  (recorded_successful w w' <-> 0 < code) /\
  posts (trace w') = (api_document env w, code) :: posts (trace w) /\
  (code <= 0 ->
   new_events w w' =
     [EvLog (LogVitals (vitals w)); EvLog (LogSendError code);
      EvHttpPost (api_document env w) code] /\
   led w' = led w /\
   clock w' = clock w + Z.of_N (http_latency env (clock w))) /\
  vitals w' = vitals w /\
  lastReadTime w' = lastReadTime w /\
  lastSendTime w' = lastSendTime w /\
  wifiConnected w' = true /\
  (let p := run_sketch (WiFi.loop env) w in
   (List.length (posts (trace p)) <= S (List.length (posts (trace w))))%nat /\
   (posts (trace p) <> posts (trace w) -> lastSendTime p = uwrap32 (clock w))).
Proof.
  intros Hon. cbv zeta.
  rewrite sendVitalDataToAPI_run, Hon.
  unfold recorded_successful. rewrite posted_new_events. cbv zeta.
  repeat split.
  - destruct (Z.gtb_spec (api_code env w) 0) as [Hc | Hc]; [lia |].
    intros Hin. cbn in Hin. discriminate Hin.
  - intros Hpos.
    destruct (Z.gtb_spec (api_code env w) 0) as [Hc | Hc]; [| lia].
    reflexivity.
  - unfold posted. cbv zeta.
    destruct (api_code env w >? 0); destruct_world w; reflexivity.
  - destruct (Z.gtb_spec (api_code env w) 0) as [Hc | Hc]; [lia |].
    reflexivity.
  - unfold posted. cbv zeta.
    destruct (Z.gtb_spec (api_code env w) 0) as [Hc | Hc]; [lia |].
    destruct_world w; reflexivity.
  - unfold posted. cbv zeta.
    destruct (Z.gtb_spec (api_code env w) 0) as [Hc | Hc]; [lia |].
    destruct_world w; reflexivity.
  - unfold posted. cbv zeta.
    destruct (api_code env w >? 0); destruct_world w; reflexivity.
  - unfold posted. cbv zeta.
    destruct (api_code env w >? 0); destruct_world w; reflexivity.
  - unfold posted. cbv zeta.
    destruct (api_code env w >? 0); destruct_world w; reflexivity.
  - unfold posted. cbv zeta.
    destruct (api_code env w >? 0); destruct_world w; wsimpl; exact Hon.
  - destruct (wifi_pass_publish env w) as (_ & _ & [-> | [c [-> _]]]);
      cbn [List.length]; lia.
  - destruct (wifi_pass_publish env w) as (_ & _ & [Hsame | [c [_ Hls]]]);
      [congruence | intros _; exact Hls].
Qed.

(** C8 as stated fails at status 0: the transport's answer is non-negative,
    yet the attempt is logged as an error. *)
Lemma status_zero_is_logged_as_error :
  let w := run_sketch (WiFi.setup status0_env) boot in
  let w' := run_sketch (WiFi.sendVitalDataToAPI status0_env) w in
  wifiConnected w = true /\
  0 <= api_code status0_env w /\
  ~ recorded_successful w w'.
Proof.
  cbv zeta. split; [vm_compute; reflexivity | split].
  - vm_compute. discriminate.
  - unfold recorded_successful.
    assert (E : existsb is_send_ok
                  (new_events (run_sketch (WiFi.setup status0_env) boot)
                     (run_sketch (WiFi.sendVitalDataToAPI status0_env)
                        (run_sketch (WiFi.setup status0_env) boot))) = false)
      by (vm_compute; reflexivity).
    rewrite E. discriminate.
Qed.

(** ** The reconnection loop ends by its condition *)




(** ** The theorems at concrete inputs *)

Lemma pulse_oximeter_plausibility_filter_witness :
  poxConnected sampling_world = true /\
  heartRate (vitals (run_sketch (readAllSensors noisy_env) sampling_world))
    = 0 /\
  oxygenSaturation
    (vitals (run_sketch (readAllSensors noisy_env) sampling_world)) = 98.
Proof.
  split; [reflexivity |].
  destruct (pulse_oximeter_plausibility_filter noisy_env sampling_world
              eq_refl) as (_ & Hhr & Hsp & _).
  split; [apply Hhr | apply Hsp]; cbn; lia.
Defined.

Lemma ecg_leads_off_forces_zero_witness :
  (lead_off no_sensors_env ECG_LO_PLUS_PIN (clock sampling_world) \/
   lead_off no_sensors_env ECG_LO_MINUS_PIN (clock sampling_world)) /\
  ecgValue (vitals (run_sketch (readAllSensors no_sensors_env) sampling_world))
    = 0 /\
  gpio quiet_env ECG_LO_PLUS_PIN (clock sampling_world) = LOW /\
  gpio quiet_env ECG_LO_MINUS_PIN (clock sampling_world) = LOW /\
  ecgLeadsConnected
    (vitals (run_sketch (readAllSensors quiet_env) sampling_world)) = true.
Proof.
  assert (Hoff : lead_off no_sensors_env ECG_LO_PLUS_PIN (clock sampling_world)
                 \/ lead_off no_sensors_env ECG_LO_MINUS_PIN
                      (clock sampling_world)).
  { left. unfold lead_off. cbn. discriminate. }
  split; [exact Hoff |].
  split.
  - exact (proj1 (proj1 (ecg_leads_off_forces_zero no_sensors_env
                           sampling_world) Hoff)).
  - split; [reflexivity | split; [reflexivity |]].
    exact (proj2 (ecg_leads_off_forces_zero quiet_env sampling_world)
             eq_refl eq_refl).
Defined.

Lemma quiet_adc_in_range : adc_in_range quiet_env.
Proof.
  intros pin t. cbn. destruct (pin =? BP_SENSOR_PIN); lia.
Defined.

Lemma diastolic_is_systolic_minus_40_witness :
  adc_in_range quiet_env /\
  bpDiastolic (vitals (run_sketch (readAllSensors quiet_env) sampling_world))
  = bpSystolic (vitals (run_sketch (readAllSensors quiet_env) sampling_world))
    - 40.
Proof.
  split; [exact quiet_adc_in_range |].
  exact (proj1 (diastolic_is_systolic_minus_40 quiet_env sampling_world
                  quiet_adc_in_range)).
Defined.

Lemma blood_pressure_remap_endpoints_witness :
  adc quiet_env BP_SENSOR_PIN (clock sampling_world) = 0 /\
  bpSystolic (vitals (run_sketch (readAllSensors quiet_env) sampling_world))
    = 80 /\
  bpDiastolic (vitals (run_sketch (readAllSensors quiet_env) sampling_world))
    = 40 /\
  adc no_sensors_env BP_SENSOR_PIN (clock sampling_world) = 4095 /\
  bpSystolic
    (vitals (run_sketch (readAllSensors no_sensors_env) sampling_world))
    = 180 /\
  bpDiastolic
    (vitals (run_sketch (readAllSensors no_sensors_env) sampling_world))
    = 140.
Proof.
  destruct (blood_pressure_remap_endpoints quiet_env sampling_world)
    as (Hmin & _ & _).
  destruct (blood_pressure_remap_endpoints no_sensors_env sampling_world)
    as (_ & Hmax & _).
  destruct (Hmin eq_refl) as [H80 H40].
  destruct (Hmax eq_refl) as [H180 H140].
  repeat split; assumption.
Defined.

Lemma ecg_value_is_raw_when_connected_witness :
  gpio quiet_env ECG_LO_PLUS_PIN (clock sampling_world) = LOW /\
  gpio quiet_env ECG_LO_MINUS_PIN (clock sampling_world) = LOW /\
  ecgValue (vitals (run_sketch (readAllSensors quiet_env) sampling_world))
  = 2048.
Proof.
  split; [reflexivity | split; [reflexivity |]].
  exact (ecg_value_is_raw_when_connected quiet_env sampling_world
           eq_refl eq_refl).
Defined.

Lemma absent_sensor_reported_zero_all_session_witness :
  pox_begin no_sensors_env = false /\
  mlx_begin no_sensors_env = false /\
  reported_absent poxConnected pox_zeroed "max30100"
    (Serial.session no_sensors_env 6) /\
  reported_absent mlxConnected temperature_zeroed "mlx90614"
    (WiFi.session no_sensors_env 6).
Proof.
  destruct (absent_sensor_reported_zero_all_session no_sensors_env 6)
    as (Hpox & Hmlx & _).
  split; [reflexivity | split; [reflexivity |]].
  split; [exact (proj1 (Hpox eq_refl)) | exact (proj2 (Hmlx eq_refl))].
Defined.

Lemma no_post_while_disconnected_witness :
  wifiConnected (WiFi.session no_wifi_env 1) = false /\
  run_sketch (WiFi.sendVitalDataToAPI no_wifi_env)
    (WiFi.session no_wifi_env 1) = WiFi.session no_wifi_env 1.
Proof.
  assert (Hoff : wifiConnected (WiFi.session no_wifi_env 1) = false)
    by (vm_compute; reflexivity).
  split; [exact Hoff |].
  exact (proj1 (no_post_while_disconnected no_wifi_env
                  (WiFi.session no_wifi_env 1)) Hoff).
Defined.

Lemma publish_success_iff_positive_status_witness :
  wifiConnected (WiFi.session quiet_env 0) = true /\
  recorded_successful (WiFi.session quiet_env 0)
    (run_sketch (WiFi.sendVitalDataToAPI quiet_env)
       (WiFi.session quiet_env 0)).
Proof.
  assert (Hon : wifiConnected (WiFi.session quiet_env 0) = true)
    by (vm_compute; reflexivity).
  split; [exact Hon |].
  destruct (publish_success_iff_positive_status quiet_env
              (WiFi.session quiet_env 0) Hon) as ([_ Hok] & _).
  apply Hok. vm_compute. reflexivity.
Defined.

Lemma timestamps_increase_until_millis_wraps_witness :
  well_stamped (Serial.session steady_env 0) /\
  clock (Serial.passes steady_env 4 (Serial.session steady_env 0)) < 2 ^ 32 /\
  increasing_stamps
    (snapshots
       (trace (Serial.passes steady_env 4 (Serial.session steady_env 0)))).
Proof.
  assert (Hw : well_stamped (Serial.session steady_env 0)).
  { unfold well_stamped. vm_compute.
    split; [discriminate | split; constructor]. }
  assert (Hlt : clock (Serial.passes steady_env 4
                         (Serial.session steady_env 0)) < 2 ^ 32)
    by (vm_compute; reflexivity).
  split; [exact Hw | split; [exact Hlt |]].
  exact (proj1 (timestamps_increase_until_millis_wraps steady_env 4
                  (Serial.session steady_env 0) Hw) Hlt).
Defined.


(** ** Further properties of the sampler *)

Lemma map_adc_monotone raw1 raw2 lo hi :
  0 <= raw1 <= raw2 -> raw2 <= 4095 -> 0 <= lo <= hi -> hi <= 1000 ->
  map raw1 0 4095 lo hi <= map raw2 0 4095 lo hi.
Proof.
  intros Hraw Hmax Hlo Hhi.
  destruct (map_adc raw1 lo hi) as [-> _]; try lia.
  destruct (map_adc raw2 lo hi) as [-> _]; try lia.
  apply Z.add_le_mono_r. apply Z.div_le_mono; nia.
Qed.

Lemma snapshot_of_in_range env w :
  adc_in_range env -> snapshot_in_range (snapshot_of env w).
Proof.
  intros Hadc. unfold snapshot_in_range, snapshot_of. wsimpl.
  pose proof (Hadc BP_SENSOR_PIN (clock w)) as Hbp.
  pose proof (Hadc RESP_SENSOR_PIN (clock w)) as Hrr.
  pose proof (Hadc ECG_OUTPUT_PIN (clock w)) as Hecg.
  destruct (map_adc (adc env BP_SENSOR_PIN (clock w)) 80 180) as [_ Hsys];
    try lia.
  destruct (map_adc (adc env RESP_SENSOR_PIN (clock w)) 8 25) as [_ Hresp];
    try lia.
  rewrite (wrap32_small (map (adc env BP_SENSOR_PIN (clock w)) 0 4095 80 180
                         - 40)) by lia.
  assert (Hp : forall lo hi raw,
             plausible lo hi raw = 0 \/ lo <= plausible lo hi raw <= hi).
  { intros lo hi raw. unfold plausible.
    destruct (Z.ltb_spec raw lo), (Z.gtb_spec raw hi); cbn; lia. }
  repeat split; try lia.
  - destruct (poxConnected w); [apply Hp | left; reflexivity].
  - destruct (poxConnected w); [apply Hp | left; reflexivity].
  - destruct (leads_off env (clock w)); cbn [negb]; [reflexivity | exact Hecg].
  - unfold uwrap32. apply Z.mod_pos_bound. lia.
  - unfold uwrap32. apply Z.mod_pos_bound. lia.
Qed.

(** X1. The respiration proxy remaps the ADC domain [0,4095] onto [8,25]: a
    raw 0 gives 8 breaths per minute, a raw 4095 gives 25, and every raw
    value of the domain gives [raw * 17 / 4095 + 8], within [8,25]. *)
Theorem respiratory_rate_remap env w :
  let raw := adc env RESP_SENSOR_PIN (clock w) in
  let v := vitals (run_sketch (readAllSensors env) w) in
  (raw = 0 -> respiratoryRate v = 8) /\
  (raw = 4095 -> respiratoryRate v = 25) /\
  (0 <= raw <= 4095 ->
   respiratoryRate v = raw * 17 / 4095 + 8 /\ 8 <= respiratoryRate v <= 25).
Proof.
  intros raw v. subst v.
  rewrite readAllSensors_vitals. unfold snapshot_of. wsimpl. fold raw.
  split; [| split].
  - intros ->. reflexivity.
  - intros ->. reflexivity.
  - intros Hraw. destruct (map_adc raw 8 25) as [He Hr]; try lia.
    rewrite He in *. split; [reflexivity | exact Hr].
Qed.

(** X2. Both proxy calibrations are monotone on the ADC domain: of two ticks,
    the one with the larger raw blood-pressure reading never reports the
    smaller systolic or diastolic value, and likewise for respiration. *)
Theorem proxy_calibration_is_monotone env w1 w2 :
  adc_in_range env ->
  let v1 := vitals (run_sketch (readAllSensors env) w1) in
  let v2 := vitals (run_sketch (readAllSensors env) w2) in
  (adc env BP_SENSOR_PIN (clock w1) <= adc env BP_SENSOR_PIN (clock w2) ->
   bpSystolic v1 <= bpSystolic v2 /\ bpDiastolic v1 <= bpDiastolic v2) /\
  (adc env RESP_SENSOR_PIN (clock w1) <= adc env RESP_SENSOR_PIN (clock w2) ->
   respiratoryRate v1 <= respiratoryRate v2).
Proof.
  intros Hadc v1 v2. subst v1 v2.
  rewrite !readAllSensors_vitals. unfold snapshot_of. wsimpl.
  pose proof (Hadc BP_SENSOR_PIN (clock w1)) as Hb1.
  pose proof (Hadc BP_SENSOR_PIN (clock w2)) as Hb2.
  pose proof (Hadc RESP_SENSOR_PIN (clock w1)) as Hr1.
  pose proof (Hadc RESP_SENSOR_PIN (clock w2)) as Hr2.
  split.
  - intros Hle.
    pose proof (map_adc_monotone _ _ 80 180 (conj (proj1 Hb1) Hle)
                  (proj2 Hb2)) as Hm.
    destruct (map_adc (adc env BP_SENSOR_PIN (clock w1)) 80 180) as [_ H1];
      try lia.
    destruct (map_adc (adc env BP_SENSOR_PIN (clock w2)) 80 180) as [_ H2];
      try lia.
    rewrite !wrap32_small by lia. lia.
  - intros Hle.
    apply map_adc_monotone; lia.
Qed.

(** X4. A tick overwrites the whole bundle: the snapshot it leaves does not
    depend on what [vitals] held before, so nothing carries over from one
    snapshot to the next. *)
Theorem snapshot_overwrites_previous env w v0 :
  vitals (run_sketch (readAllSensors env) (with_vitals v0 w))
  = vitals (run_sketch (readAllSensors env) w).
Proof.
  rewrite !readAllSensors_vitals. destruct_world w. reflexivity.
Qed.

(** ** The published record *)

Lemma parse_serial_record env w :
  parse_record (serial_record env w)
  = Some (mkTelemetry (published env (vitals w)) (mlxConnected w)
            (poxConnected w) None).
Proof. destruct_world w. reflexivity. Qed.

Lemma parse_api_document env w :
  parse_record (api_document env w)
  = Some (mkTelemetry (published env (vitals w)) (mlxConnected w)
            (poxConnected w) (Some "ESP32_001")).
Proof. destruct_world w. reflexivity. Qed.

(** X5. The serial record reads back as the snapshot: [sendVitalData] emits
    one document whose keys are, in order, hr, bp_sys, bp_dia, temp, spo2,
    rr, ecg, ecg_leads, timestamp, sensors; parsing it returns every integer
    and boolean field of [vitals] unchanged, the temperature after
    [round(t * 10) / 10.0], the two capability flags, and no device_id.  The
    call changes nothing but the output. *)
Theorem serial_record_round_trip env w :
  let w' := run_sketch (Serial.sendVitalData env) w in
  exists doc,
    new_events w w' = [EvSerialRecord doc] /\
    List.map fst doc
    = ["hr"; "bp_sys"; "bp_dia"; "temp"; "spo2"; "rr"; "ecg"; "ecg_leads";
       "timestamp"; "sensors"] /\
    parse_record doc
    = Some (mkTelemetry (published env (vitals w)) (mlxConnected w)
              (poxConnected w) None) /\
    w' = with_trace (EvSerialRecord doc :: trace w) w.
Proof.
  cbv zeta. rewrite sendVitalData_run. exists (serial_record env w).
  split; [| split; [| split]].
  - apply new_events_app. reflexivity.
  - reflexivity.
  - apply parse_serial_record.
  - reflexivity.
Qed.

(** X6. The HTTP request body reads back as the snapshot: with the flag set,
    [sendVitalDataToAPI] posts one document with the serial record's keys
    plus device_id before sensors; parsing it returns the fields of
    [vitals] (temperature rounded), the capability flags and the device id
    "ESP32_001".  The status the transport returns is the one logged. *)
Theorem api_document_round_trip env w :
  wifiConnected w = true ->
  let w' := run_sketch (WiFi.sendVitalDataToAPI env) w in
  exists doc code,
    posts (trace w') = (doc, code) :: posts (trace w) /\
    code = http_POST env (clock w) doc /\
    List.map fst doc
    = ["hr"; "bp_sys"; "bp_dia"; "temp"; "spo2"; "rr"; "ecg"; "ecg_leads";
       "timestamp"; "device_id"; "sensors"] /\
    parse_record doc
    = Some (mkTelemetry (published env (vitals w)) (mlxConnected w)
              (poxConnected w) (Some "ESP32_001")) /\
    (In (EvLog (LogSendOk code)) (new_events w w') \/
     In (EvLog (LogSendError code)) (new_events w w')).
Proof.
  intros Hon. cbv zeta. rewrite sendVitalDataToAPI_run, Hon.
  exists (api_document env w), (api_code env w).
  rewrite posted_new_events. cbv zeta.
  split; [| split; [| split; [| split]]].
  - unfold posted. cbv zeta.
    destruct (api_code env w >? 0); destruct_world w; reflexivity.
  - reflexivity.
  - reflexivity.
  - apply parse_api_document.
  - destruct (api_code env w >? 0); [left | right]; right; left; reflexivity.
Qed.

(** ** Further session invariants *)

Lemma serial_pass_snapshots_forall env (P : VitalData -> Prop) w :
  (forall w0, P (snapshot_of env w0)) ->
  Forall P (snapshots (trace w)) ->
  Forall P (snapshots (trace (run_sketch (Serial.loop env) w))).
Proof.
  intros Hnew Hold. rewrite serial_loop_run.
  destruct (serial_pass_summary env w) as (-> & _).
  destruct (read_due (uwrap32 (clock w)) w); cbn [app]; auto.
Qed.

Lemma wifi_pass_snapshots_forall env (P : VitalData -> Prop) w :
  (forall w0, P (snapshot_of env w0)) ->
  Forall P (snapshots (trace w)) ->
  Forall P (snapshots (trace (run_sketch (WiFi.loop env) w))).
Proof.
  intros Hnew Hold. rewrite wifi_loop_run. unfold wifi_pass.
  destruct (wifi_pass_link env w) as [Hstep _].
  destruct (wifi_rest_summary env (uwrap32 (clock w)) (link_checked env w))
    as (-> & _).
  destruct Hstep as (_ & _ & _ & _ & _ & _ & -> & _).
  destruct (read_due _ _); cbn [app]; auto.
Qed.

(** X3. With the 12-bit ADC, every snapshot stays inside the ranges of the
    data model: heart rate 0 or in [30,200], oxygen saturation 0 or in
    [70,100], systolic in [80,180], diastolic in [40,140], respiration in
    [8,25], the ECG value in [0,4095] with the leads on and 0 with them off,
    and the timestamp below 2^32.  This holds for the snapshot of any single
    tick and for all snapshots of a session of either sketch. *)
Theorem snapshots_stay_in_range env :
  adc_in_range env ->
  (forall w,
     snapshot_in_range (vitals (run_sketch (readAllSensors env) w))) /\
  (forall n,
     Forall snapshot_in_range (snapshots (trace (Serial.session env n))) /\
     Forall snapshot_in_range (snapshots (trace (WiFi.session env n)))).
Proof.
  intros Hadc. split.
  - intros w. rewrite readAllSensors_vitals.
    apply snapshot_of_in_range, Hadc.
  - intros n. split.
    + unfold Serial.session. apply serial_passes_ind.
      * intros w. apply serial_pass_snapshots_forall.
        intros w0. apply snapshot_of_in_range, Hadc.
      * destruct (serial_setup_spec env) as (_ & _ & _ & -> & _). constructor.
    + unfold WiFi.session. apply wifi_passes_ind.
      * intros w. apply wifi_pass_snapshots_forall.
        intros w0. apply snapshot_of_in_range, Hadc.
      * destruct (wifi_setup_spec env) as (_ & _ & _ & -> & _). constructor.
Qed.

(** X7. The serial sketch publishes every snapshot exactly once and at once:
    after any number of passes the records on the serial line correspond one
    to one, in order, to the snapshots taken, each record reading back as its
    snapshot together with the probe results of [setup]. *)
Theorem serial_records_match_snapshots env n :
  let s := Serial.session env n in
  List.map parse_record (records (trace s))
  = List.map
      (fun v =>
         Some (mkTelemetry (published env v) (mlx_begin env) (pox_begin env)
                 None))
      (snapshots (trace s)).
Proof.
  cbv zeta. unfold Serial.session.
  set (told := fun v : VitalData =>
                 Some (mkTelemetry (published env v) (mlx_begin env)
                         (pox_begin env) None)).
  apply (serial_passes_ind env
           (fun w => mlxConnected w = mlx_begin env /\
                     poxConnected w = pox_begin env /\
                     List.map parse_record (records (trace w))
                     = List.map told (snapshots (trace w)))).
  - intros w (Hm & Hp & Hrec). rewrite serial_loop_run.
    destruct (serial_pass_summary env w)
      as (-> & -> & _ & _ & _ & -> & -> & _).
    split; [exact Hm | split; [exact Hp |]].
    destruct (read_due (uwrap32 (clock w)) w); cbn [app List.map];
      [| exact Hrec].
    rewrite Hrec, parse_serial_record. unfold told at 2.
    f_equal. destruct_world w. unfold sampled. wsimpl. wsimpl.
    cbn in Hm, Hp. rewrite Hm, Hp. reflexivity.
  - destruct (serial_setup_spec env) as (-> & -> & _ & -> & -> & _).
    repeat split.
Qed.

(** ** The interval timers *)

Lemma uwrap32_diff c0 c :
  0 <= c - c0 < 2 ^ 32 -> uwrap32 (uwrap32 c - uwrap32 c0) = c - c0.
Proof.
  intros H. unfold uwrap32.
  rewrite Zminus_mod_idemp_l, Zminus_mod_idemp_r.
  apply Z.mod_small. exact H.
Qed.

(** The sampling step of one WiFi pass. *)
Lemma wifi_pass_sampling env w :
  let w' := run_sketch (WiFi.loop env) w in
  let due := read_due (uwrap32 (clock w)) w in
  reads w' = reads w + (if due then 1 else 0) /\
  lastReadTime w' = (if due then uwrap32 (clock w) else lastReadTime w).
Proof.
  cbv zeta. rewrite wifi_loop_run. unfold wifi_pass.
  destruct (wifi_pass_link env w) as [Hstep Hdue].
  destruct (wifi_rest_summary env (uwrap32 (clock w)) (link_checked env w))
    as (Es & _ & _ & _ & Elr & _).
  destruct Hstep as (_ & Llr & _ & _ & _ & _ & Ls & _).
  unfold reads. rewrite Es, Elr, Ls, Llr, Hdue.
  destruct (read_due (uwrap32 (clock w)) w); cbn [app List.length];
    split; try reflexivity; lia.
Qed.

Lemma serial_pass_sampling env w :
  let w' := run_sketch (Serial.loop env) w in
  let due := read_due (uwrap32 (clock w)) w in
  reads w' = reads w + (if due then 1 else 0) /\
  lastReadTime w' = (if due then uwrap32 (clock w) else lastReadTime w).
Proof.
  cbv zeta. rewrite serial_loop_run.
  destruct (serial_pass_summary env w) as (Es & _ & _ & _ & Elr & _).
  unfold reads. rewrite Es, Elr.
  destruct (read_due (uwrap32 (clock w)) w); cbn [app List.length];
    split; try reflexivity; lia.
Qed.

(** X8. The read timer is immune to the wrap of [millis()]: if the last
    sampling pass began at time [c0] (so [lastReadTime] holds [c0] modulo
    2^32) and less than 2^32 ms have gone by, a pass of either [loop]
    samples exactly when at least [READ_INTERVAL] ms of real time separate
    it from [c0], and then restarts the timer at its own start time. *)
Theorem read_timer_survives_wraparound env w c0 :
  lastReadTime w = uwrap32 c0 ->
  0 <= clock w - c0 < 2 ^ 32 ->
  let due := clock w - c0 >=? READ_INTERVAL in
  let s := run_sketch (Serial.loop env) w in
  let n := run_sketch (WiFi.loop env) w in
  reads s = reads w + (if due then 1 else 0) /\
  reads n = reads w + (if due then 1 else 0) /\
  lastReadTime s = (if due then uwrap32 (clock w) else uwrap32 c0) /\
  lastReadTime n = (if due then uwrap32 (clock w) else uwrap32 c0).
Proof.
  intros Hlast Hgap. cbv zeta.
  assert (Hdue : read_due (uwrap32 (clock w)) w
                 = (clock w - c0 >=? READ_INTERVAL)).
  { unfold read_due. rewrite Hlast, uwrap32_diff by exact Hgap. reflexivity. }
  destruct (serial_pass_sampling env w) as [Hs1 Hs2].
  destruct (wifi_pass_sampling env w) as [Hn1 Hn2].
  rewrite Hdue, ?Hlast in *. repeat split; assumption.
Qed.

Lemma wifi_sampled_lastSendTime env currentTime w :
  lastSendTime (wifi_sampled env currentTime w) = lastSendTime w.
Proof.
  unfold wifi_sampled, sampled.
  destruct (read_due currentTime w); destruct_world w; reflexivity.
Qed.

(** The publish step of one WiFi pass, by its guard. *)
Lemma wifi_pass_posting env w :
  let w' := run_sketch (WiFi.loop env) w in
  let due :=
    wifiConnected (link_checked env w)
    && (uwrap32 (uwrap32 (clock w) - lastSendTime w) >=? SEND_INTERVAL) in
  (due = false ->
   posts (trace w') = posts (trace w) /\ lastSendTime w' = lastSendTime w) /\
  (due = true ->
   exists code,
     posts (trace w') = (api_document env w', code) :: posts (trace w) /\
     lastSendTime w' = uwrap32 (clock w)).
Proof.
  cbv zeta. rewrite wifi_loop_run. unfold wifi_pass.
  destruct (wifi_pass_link env w) as [Hstep _].
  set (currentTime := uwrap32 (clock w)) in *.
  set (w1 := link_checked env w) in *.
  destruct (wifi_rest_summary env currentTime w1)
    as (_ & Ep & _ & _ & _ & Els & Emlx & Epox & _ & Ewifi2 & Ev
        & Emlx2 & Epox2 & _).
  destruct Hstep as (_ & _ & Lls & _ & _ & _ & _ & _ & Lp).
  rewrite Ep, Els, Lp, Lls.
  assert (Hdue : send_due currentTime (wifi_sampled env currentTime w1)
                 = wifiConnected w1
                   && (uwrap32 (currentTime - lastSendTime w)
                       >=? SEND_INTERVAL)).
  { unfold send_due. rewrite Ewifi2, wifi_sampled_lastSendTime, Lls.
    reflexivity. }
  rewrite Hdue. split; intros ->; cbn [app].
  - split; reflexivity.
  - exists (api_code env (wifi_sampled env currentTime w1)).
    split; [| reflexivity]. f_equal. f_equal.
    symmetry. apply api_document_ext; congruence.
Qed.

(** X9. The send timer rate-limits the requests, also across the wrap of
    [millis()]: if the last posting pass began at [c0] and less than 2^32 ms
    have gone by, a pass that starts less than [SEND_INTERVAL] ms after [c0]
    posts nothing and leaves the timer alone; a pass that starts later and
    finds the connection flag set posts exactly one request, the record of
    the current snapshot, and restarts the timer. *)
Theorem send_timer_rate_limits_posts env w c0 :
  lastSendTime w = uwrap32 c0 ->
  0 <= clock w - c0 < 2 ^ 32 ->
  let w' := run_sketch (WiFi.loop env) w in
  (clock w - c0 < SEND_INTERVAL ->
   posts (trace w') = posts (trace w) /\ lastSendTime w' = lastSendTime w) /\
  (SEND_INTERVAL <= clock w - c0 ->
   wifiConnected (link_checked env w) = true ->
   exists code,
     posts (trace w') = (api_document env w', code) :: posts (trace w) /\
     lastSendTime w' = uwrap32 (clock w)).
Proof.
  intros Hlast Hgap. cbv zeta.
  destruct (wifi_pass_posting env w) as [Hskip Hpost].
  rewrite Hlast, uwrap32_diff in Hskip, Hpost by exact Hgap.
  split.
  - intros Hearly. rewrite Hlast. apply Hskip.
    destruct (Z.geb_spec (clock w - c0) SEND_INTERVAL) as [Hge | Hlt];
      [lia | apply andb_false_r].
  - intros Hlate Hflag. apply Hpost. rewrite Hflag.
    destruct (Z.geb_spec (clock w - c0) SEND_INTERVAL) as [Hge | Hlt];
      [reflexivity | lia].
Qed.

(** ** The link manager *)

Section LinkManager.
Variable env : Env.



End LinkManager.


(** ** Sessions, continued *)

Lemma wifi_pass_link_up env w :
  is_WL_CONNECTED (WiFi_status env (clock w)) = true ->
  wifiConnected (run_sketch (WiFi.loop env) w) = wifiConnected w.
Proof.
  intros Hup.
  destruct (wifi_pass_publish env w) as (-> & _).
  destruct (link_checked_spec env w) as (_ & Hsame & _).
  rewrite (Hsame Hup). reflexivity.
Qed.

(** X12. The connection flag is raised only by [connectToWiFi], and [loop]
    calls it only when the link is down.  So when a connection attempt has
    failed and the link then comes up by itself and stays up, every later
    pass sees a healthy link, leaves the flag false, and never posts:
    the sketch keeps sampling but stays silent for as long as the link
    holds. *)
Theorem flag_stays_false_while_link_is_up env w n :
  (forall t, clock w <= t -> is_WL_CONNECTED (WiFi_status env t) = true) ->
  wifiConnected w = false ->
  wifiConnected (WiFi.passes env n w) = false /\
  posts (trace (WiFi.passes env n w)) = posts (trace w).
Proof.
  revert w. induction n as [| n IH]; intros w Hup Hoff; cbn [WiFi.passes];
    [split; [exact Hoff | reflexivity] |].
  assert (Hoff' : wifiConnected (run_sketch (WiFi.loop env) w) = false).
  { rewrite wifi_pass_link_up; [exact Hoff | apply Hup; lia]. }
  destruct (wifi_pass_publish env w) as (_ & Hquiet & _).
  destruct (Hquiet Hoff') as [Hposts _].
  pose proof (wifi_pass_clock env w) as Hclk.
  destruct (IH (run_sketch (WiFi.loop env) w)) as [Hf Hp].
  - intros t Ht. apply Hup. lia.
  - exact Hoff'.
  - split; [exact Hf | rewrite Hp; exact Hposts].
Qed.

(** ** The probes run once *)

Lemma probe_lines_accesses env w tr :
  probe_lines (sampler_accesses env w ++ tr) = probe_lines tr.
Proof.
  unfold sampler_accesses.
  destruct (leads_off env (clock w)), (poxConnected w), (mlxConnected w);
    reflexivity.
Qed.

Lemma connect_wait_probe_lines env fuel :
  forall attempts w,
    wp (WiFi.connect_wait env fuel attempts)
       (fun _ w' => probe_lines (trace w') = probe_lines (trace w)) w.
Proof.
  induction fuel as [| fuel IH]; intros attempts w.
  - apply wp_ret. reflexivity.
  - cbn [WiFi.connect_wait]. unfold WiFi_status_.
    destruct_world w. wp_steps.
    + eapply wp_weaken; [apply IH |].
      cbv beta. intros _ w' ->. reflexivity.
    + reflexivity.
Qed.

Lemma connectToWiFi_probe_lines env w :
  probe_lines (trace (run_sketch (WiFi.connectToWiFi env) w))
  = probe_lines (trace w).
Proof.
  apply (wp_run (WiFi.connectToWiFi env)
           (fun w' => probe_lines (trace w') = probe_lines (trace w))).
  unfold WiFi.connectToWiFi, WiFi_status_.
  wp_prim. wp_prim. wp_prim. wp_prim. wp_prim.
  eapply wp_weaken; [apply connect_wait_probe_lines |].
  cbv beta. intros _ w1 Hw1.
  assert (Hw : probe_lines (trace w1) = probe_lines (trace w))
    by (rewrite Hw1; destruct_world w; reflexivity).
  clear Hw1.
  destruct_world w1. wp_steps; wsimpl; exact Hw.
Qed.

Lemma serial_pass_probe_lines env w :
  probe_lines (trace (run_sketch (Serial.loop env) w)) = probe_lines (trace w).
Proof.
  rewrite serial_loop_run. unfold serial_pass.
  destruct (read_due (uwrap32 (clock w)) w);
    unfold pox_updated, sampled; destruct_world w; wsimpl.
  all: split_tests.
  all: cbn [probe_lines].
  all: rewrite ?probe_lines_accesses.
  all: reflexivity.
Qed.

Lemma wifi_pass_probe_lines env w :
  probe_lines (trace (run_sketch (WiFi.loop env) w)) = probe_lines (trace w).
Proof.
  rewrite wifi_loop_run. unfold wifi_pass.
  assert (Hlink : probe_lines (trace (link_checked env w))
                  = probe_lines (trace w)).
  { unfold link_checked.
    destruct (is_WL_CONNECTED (WiFi_status env (clock w))); [reflexivity |].
    rewrite connectToWiFi_probe_lines. destruct_world w. reflexivity. }
  rewrite <- Hlink.
  generalize (link_checked env w) (uwrap32 (clock w)).
  intros w1 currentTime.
  unfold wifi_rest, wifi_published, wifi_sampled.
  destruct (read_due currentTime w1);
    unfold send_due, pox_updated, posted, sampled;
    destruct_world w1; wsimpl.
  all: split_tests.
  all: cbn [probe_lines].
  all: rewrite ?probe_lines_accesses.
  all: reflexivity.
Qed.

Lemma serial_setup_probe_lines env :
  probe_lines (trace (run_sketch (Serial.setup env) boot))
  = [probe_line (pox_begin env) "MAX30100";
     probe_line (mlx_begin env) "MLX90614"].
Proof.
  change (run_sketch (Serial.setup env) boot)
    with (run_sketch
            (LED_write LOW ;;
             probe (mlx_begin env) with_mlxConnected "MLX90614" ;;
             probe (pox_begin env) with_poxConnected "MAX30100" ;;
             Serial_println LogReady)
            (run_sketch (Serial.wait_serial (serial_wait env)) boot)).
  rewrite wait_serial_run. unfold boot, probe, probe_line.
  destruct (mlx_begin env), (pox_begin env); reflexivity.
Qed.

Lemma wifi_setup_probe_lines env :
  probe_lines (trace (run_sketch (WiFi.setup env) boot))
  = [probe_line (pox_begin env) "MAX30100";
     probe_line (mlx_begin env) "MLX90614"].
Proof.
  change (run_sketch (WiFi.setup env) boot)
    with (run_sketch
            (probe (mlx_begin env) with_mlxConnected "MLX90614" ;;
             probe (pox_begin env) with_poxConnected "MAX30100" ;;
             Serial_println LogReady)
            (run_sketch (WiFi.connectToWiFi env)
               (with_led false (with_clock 1000 boot)))).
  pose proof (connectToWiFi_probe_lines env
                (with_led false (with_clock 1000 boot))) as Hlink.
  set (w1 := run_sketch (WiFi.connectToWiFi env) _) in *.
  clearbody w1. cbn in Hlink.
  destruct_world w1. unfold probe, probe_line. cbn in Hlink.
  destruct (mlx_begin env), (pox_begin env); cbn; rewrite Hlink;
    reflexivity.
Qed.

(** X13. The capability flags are decided once, in [setup], in both
    sketches: after any number of passes [mlxConnected] and [poxConnected]
    still equal the results of [mlx.begin()] and [pox.begin()], and the log
    holds exactly one outcome line per sensor, the one [setup] wrote, so
    no pass of [loop] runs a probe again. *)
Theorem capability_flags_are_probe_results env n :
  let probed := [probe_line (pox_begin env) "MAX30100";
                 probe_line (mlx_begin env) "MLX90614"] in
  mlxConnected (Serial.session env n) = mlx_begin env /\
  poxConnected (Serial.session env n) = pox_begin env /\
  mlxConnected (WiFi.session env n) = mlx_begin env /\
  poxConnected (WiFi.session env n) = pox_begin env /\
  probe_lines (trace (Serial.session env n)) = probed /\
  probe_lines (trace (WiFi.session env n)) = probed.
Proof.
  cbv zeta.
  assert (Hs : probe_lines (trace (Serial.session env n))
               = probe_lines (trace (run_sketch (Serial.setup env) boot))).
  { unfold Serial.session.
    apply (serial_passes_ind env
             (fun w => probe_lines (trace w)
                       = probe_lines
                           (trace (run_sketch (Serial.setup env) boot))));
      [| reflexivity].
    intros w Hw. rewrite serial_pass_probe_lines. exact Hw. }
  assert (Hn : probe_lines (trace (WiFi.session env n))
               = probe_lines (trace (run_sketch (WiFi.setup env) boot))).
  { unfold WiFi.session.
    apply (wifi_passes_ind env
             (fun w => probe_lines (trace w)
                       = probe_lines
                           (trace (run_sketch (WiFi.setup env) boot))));
      [| reflexivity].
    intros w Hw. rewrite wifi_pass_probe_lines. exact Hw. }
  rewrite Hs, Hn, serial_setup_probe_lines, wifi_setup_probe_lines.
  unfold Serial.session, WiFi.session.
  destruct (serial_passes_flags env n (run_sketch (Serial.setup env) boot))
    as [-> ->].
  destruct (wifi_passes_flags env n (run_sketch (WiFi.setup env) boot))
    as [-> ->].
  destruct (serial_setup_spec env) as (-> & -> & _).
  destruct (wifi_setup_spec env) as (-> & -> & _).
  repeat split.
Qed.

(** ** What gets published, and how often *)

Lemma wifi_setup_timing env :
  let w := run_sketch (WiFi.setup env) boot in
  lastReadTime w = 0 /\ 1000 <= clock w <= 11000.
Proof.
  intros w. subst w.
  change (run_sketch (WiFi.setup env) boot)
    with (run_sketch
            (probe (mlx_begin env) with_mlxConnected "MLX90614" ;;
             probe (pox_begin env) with_poxConnected "MAX30100" ;;
             Serial_println LogReady)
            (run_sketch (WiFi.connectToWiFi env)
               (with_led false (with_clock 1000 boot)))).
  destruct (connectToWiFi_spec env (with_led false (with_clock 1000 boot)))
    as [Hstep _].
  set (w1 := run_sketch (WiFi.connectToWiFi env) _) in *.
  clearbody w1. unfold link_step in Hstep. cbn in Hstep.
  destruct Hstep as (_ & Hlr & _ & _ & _ & Hclk & _).
  destruct_world w1. wsimpl. unfold probe.
  destruct (mlx_begin env), (pox_begin env); cbn; split; assumption.
Qed.

Lemma carries_snapshot_grows env taken taken' p :
  (forall v, In v taken -> In v taken') ->
  carries_snapshot_of env taken p -> carries_snapshot_of env taken' p.
Proof.
  intros Hsub (v & Hin & Hparse). exists v. split; [apply Hsub, Hin | exact Hparse].
Qed.

Lemma wifi_pass_provenance env w :
  mlxConnected w = mlx_begin env ->
  poxConnected w = pox_begin env ->
  Forall (carries_snapshot_of env (snapshots (trace w))) (posts (trace w)) ->
  (snapshots (trace w) = [] /\ lastReadTime w = 0 /\ 1000 <= clock w <= 11000)
  \/ In (vitals w) (snapshots (trace w)) ->
  let w' := run_sketch (WiFi.loop env) w in
  mlxConnected w' = mlx_begin env /\
  poxConnected w' = pox_begin env /\
  Forall (carries_snapshot_of env (snapshots (trace w'))) (posts (trace w')) /\
  In (vitals w') (snapshots (trace w')).
Proof.
  intros Hm Hp Hposts Hstate. cbv zeta.
  rewrite wifi_loop_run. unfold wifi_pass.
  destruct (wifi_pass_link env w) as [Hstep Hdue].
  set (currentTime := uwrap32 (clock w)) in *.
  set (w1 := link_checked env w) in *.
  destruct (wifi_rest_summary env currentTime w1)
    as (Es & Ep & _ & Ev & _ & _ & Emlx & Epox & _ & _ & Ev2 & Emlx2 & Epox2
        & _).
  destruct Hstep as (Lv & _ & _ & Lmlx & Lpox & _ & Ls & _ & Lp).
  set (w2 := wifi_sampled env currentTime w1) in *.
  set (w' := wifi_rest env currentTime w1) in *.
  assert (Hin : In (vitals w') (snapshots (trace w'))).
  { rewrite Es, Ev, Ls, Lv, Hdue.
    destruct Hstate as [(Hnone & Hlr & Hclk) | Hlatest].
    - assert (Hnow : read_due currentTime w = true).
      { unfold read_due. rewrite Hlr, Z.sub_0_r. subst currentTime.
        unfold uwrap32. rewrite Z.mod_mod by lia.
        rewrite Z.mod_small by lia.
        unfold READ_INTERVAL. apply Z.geb_le. lia. }
      rewrite Hnow. left. reflexivity.
    - destruct (read_due currentTime w); cbn [app];
        [left; reflexivity | exact Hlatest]. }
  split; [congruence | split; [congruence | split; [| exact Hin]]].
  assert (Hold : Forall (carries_snapshot_of env (snapshots (trace w')))
                   (posts (trace w))).
  { eapply Forall_impl; [| exact Hposts]. intros p.
    apply carries_snapshot_grows. intros v Hv. rewrite Es, Ls.
    apply in_or_app. right. exact Hv. }
  rewrite Ep, Lp. destruct (send_due currentTime w2); cbn [app];
    [| exact Hold].
  constructor; [| exact Hold].
  exists (vitals w'). split; [exact Hin |]. cbn [fst].
  rewrite parse_api_document. rewrite Ev2, Emlx2, Epox2, Lmlx, Lpox, Hm, Hp.
  reflexivity.
Qed.

(** X14. The WiFi sketch never posts the zero-initialised bundle: the first
    pass after [setup] always samples before it can publish, and every
    request of a session carries the record of a snapshot taken earlier in
    that session, with the probe results of [setup] and the device id. *)
Theorem posts_carry_session_snapshots env n :
  let s := WiFi.session env n in
  Forall (carries_snapshot_of env (snapshots (trace s))) (posts (trace s)) /\
  ((0 < n)%nat -> snapshots (trace s) <> []).
Proof.
  cbv zeta. unfold WiFi.session.
  destruct (wifi_setup_spec env) as (Hm & Hp & _ & Hs & _ & Hposts & _).
  destruct (wifi_setup_timing env) as (Hlr & Hclk).
  set (w0 := run_sketch (WiFi.setup env) boot) in *. clearbody w0.
  destruct n as [| n]; cbn [WiFi.passes].
  - rewrite Hposts. split; [constructor | lia].
  - assert (Hempty : Forall (carries_snapshot_of env (snapshots (trace w0)))
                       (posts (trace w0))).
    { rewrite Hposts. constructor. }
    pose proof (wifi_pass_provenance env w0 Hm Hp Hempty
                  (or_introl (conj Hs (conj Hlr Hclk)))) as Hfirst.
    cbv zeta in Hfirst.
    set (w1 := run_sketch (WiFi.loop env) w0) in *. clearbody w1.
    assert (Hall :
      mlxConnected (WiFi.passes env n w1) = mlx_begin env /\
      poxConnected (WiFi.passes env n w1) = pox_begin env /\
      Forall (carries_snapshot_of env
                (snapshots (trace (WiFi.passes env n w1))))
        (posts (trace (WiFi.passes env n w1))) /\
      In (vitals (WiFi.passes env n w1))
        (snapshots (trace (WiFi.passes env n w1)))).
    { revert Hfirst. generalize w1. clear.
      induction n as [| n IH]; intros w Hw; cbn [WiFi.passes];
        [exact Hw |].
      apply IH. destruct Hw as (Hm & Hp & Hf & Hin).
      apply (wifi_pass_provenance env w Hm Hp Hf (or_intror Hin)). }
    destruct Hall as (_ & _ & Hf & Hin).
    split; [exact Hf |]. intros _ Hnil. rewrite Hnil in Hin. exact Hin.
Qed.

(** ** Recovery of the link *)


(** ** The further theorems at concrete inputs *)

Lemma respiratory_rate_remap_witness :
  adc no_sensors_env RESP_SENSOR_PIN (clock sampling_world) = 4095 /\
  respiratoryRate
    (vitals (run_sketch (readAllSensors no_sensors_env) sampling_world)) = 25.
Proof.
  split; [reflexivity |].
  exact (proj1 (proj2 (respiratory_rate_remap no_sensors_env sampling_world))
           eq_refl).
Defined.

Lemma ramp_adc_in_range : adc_in_range ramp_env.
Proof. intros pin t. cbn. lia. Defined.

Lemma proxy_calibration_is_monotone_witness :
  let v1 := vitals (run_sketch (readAllSensors ramp_env) boot) in
  let v2 := vitals (run_sketch (readAllSensors ramp_env) sampling_world) in
  adc_in_range ramp_env /\
  (adc ramp_env BP_SENSOR_PIN (clock boot) = 0 /\
   adc ramp_env BP_SENSOR_PIN (clock sampling_world) = 4095) /\
  (adc ramp_env RESP_SENSOR_PIN (clock boot) = 0 /\
   adc ramp_env RESP_SENSOR_PIN (clock sampling_world) = 4095) /\
  (bpSystolic v1 <= bpSystolic v2 /\ bpDiastolic v1 <= bpDiastolic v2) /\
  respiratoryRate v1 <= respiratoryRate v2 /\
  (bpSystolic v1, bpDiastolic v1, respiratoryRate v1) = (80, 40, 8) /\
  (bpSystolic v2, bpDiastolic v2, respiratoryRate v2) = (180, 140, 25).
Proof.
  cbv zeta.
  assert (Hb : adc ramp_env BP_SENSOR_PIN (clock boot)
               <= adc ramp_env BP_SENSOR_PIN (clock sampling_world))
    by (cbn; lia).
  assert (Hr : adc ramp_env RESP_SENSOR_PIN (clock boot)
               <= adc ramp_env RESP_SENSOR_PIN (clock sampling_world))
    by (cbn; lia).
  destruct (proxy_calibration_is_monotone ramp_env boot sampling_world
              ramp_adc_in_range) as [Hbp Hresp].
  split; [exact ramp_adc_in_range |].
  split; [split; reflexivity |].
  split; [split; reflexivity |].
  split; [exact (Hbp Hb) |].
  split; [exact (Hresp Hr) |].
  split; reflexivity.
Defined.

Lemma snapshots_stay_in_range_witness :
  adc_in_range quiet_env /\
  Forall snapshot_in_range (snapshots (trace (WiFi.session quiet_env 5))).
Proof.
  split; [exact quiet_adc_in_range |].
  exact (proj2 (proj2 (snapshots_stay_in_range quiet_env quiet_adc_in_range)
                  5%nat)).
Defined.

Lemma api_document_round_trip_witness :
  wifiConnected (WiFi.session quiet_env 0) = true /\
  exists doc code,
    posts (trace (run_sketch (WiFi.sendVitalDataToAPI quiet_env)
                    (WiFi.session quiet_env 0)))
    = (doc, code) :: posts (trace (WiFi.session quiet_env 0)) /\
    parse_record doc
    = Some (mkTelemetry
              (published quiet_env (vitals (WiFi.session quiet_env 0)))
              (mlxConnected (WiFi.session quiet_env 0))
              (poxConnected (WiFi.session quiet_env 0))
              (Some "ESP32_001")).
Proof.
  assert (Hon : wifiConnected (WiFi.session quiet_env 0) = true)
    by (vm_compute; reflexivity).
  split; [exact Hon |].
  destruct (api_document_round_trip quiet_env (WiFi.session quiet_env 0) Hon)
    as (doc & code & Hpost & _ & _ & Hparse & _).
  exists doc, code. split; assumption.
Defined.

Lemma read_timer_survives_wraparound_witness :
  lastReadTime (Serial.passes steady_env 1 uptime_49_days)
  = uwrap32 4294966500 /\
  0 <= clock (Serial.passes steady_env 1 uptime_49_days) - 4294966500
    < 2 ^ 32 /\
  reads (run_sketch (Serial.loop steady_env)
           (Serial.passes steady_env 1 uptime_49_days))
  = reads (Serial.passes steady_env 1 uptime_49_days) + 1.
Proof.
  assert (Hlast : lastReadTime (Serial.passes steady_env 1 uptime_49_days)
                  = uwrap32 4294966500) by (vm_compute; reflexivity).
  assert (Hgap : 0 <= clock (Serial.passes steady_env 1 uptime_49_days)
                      - 4294966500 < 2 ^ 32)
    by (vm_compute; split; [discriminate | reflexivity]).
  split; [exact Hlast | split; [exact Hgap |]].
  destruct (read_timer_survives_wraparound steady_env
              (Serial.passes steady_env 1 uptime_49_days) 4294966500
              Hlast Hgap) as (Hs & _).
  assert (Hdue : (clock (Serial.passes steady_env 1 uptime_49_days)
                  - 4294966500 >=? READ_INTERVAL) = true)
    by (vm_compute; reflexivity).
  rewrite Hdue in Hs. exact Hs.
Defined.

Lemma send_timer_rate_limits_posts_witness :
  lastSendTime (WiFi.session quiet_env 93) = uwrap32 2001 /\
  0 <= clock (WiFi.session quiet_env 93) - 2001 < 2 ^ 32 /\
  clock (WiFi.session quiet_env 93) - 2001 < SEND_INTERVAL /\
  posts (trace (run_sketch (WiFi.loop quiet_env) (WiFi.session quiet_env 93)))
  = posts (trace (WiFi.session quiet_env 93)).
Proof.
  assert (Hlast : lastSendTime (WiFi.session quiet_env 93) = uwrap32 2001)
    by (vm_compute; reflexivity).
  assert (Hgap : 0 <= clock (WiFi.session quiet_env 93) - 2001 < 2 ^ 32)
    by (vm_compute; split; [discriminate | reflexivity]).
  assert (Hearly : clock (WiFi.session quiet_env 93) - 2001 < SEND_INTERVAL)
    by (vm_compute; reflexivity).
  split; [exact Hlast | split; [exact Hgap | split; [exact Hearly |]]].
  exact (proj1 (proj1 (send_timer_rate_limits_posts quiet_env
                         (WiFi.session quiet_env 93) 2001 Hlast Hgap)
                  Hearly)).
Defined.

Lemma late_wifi_up_from_second_pass :
  forall t, clock (WiFi.session late_wifi_env 1) <= t ->
            is_WL_CONNECTED (WiFi_status late_wifi_env t) = true.
Proof.
  assert (Hclk : clock (WiFi.session late_wifi_env 1) = 21010)
    by (vm_compute; reflexivity).
  intros t Ht. rewrite Hclk in Ht. cbn.
  destruct (Z.ltb_spec t 21005); [lia | reflexivity].
Defined.

Lemma flag_stays_false_while_link_is_up_witness :
  (forall t, clock (WiFi.session late_wifi_env 1) <= t ->
             is_WL_CONNECTED (WiFi_status late_wifi_env t) = true) /\
  wifiConnected (WiFi.session late_wifi_env 1) = false /\
  posts (trace (WiFi.passes late_wifi_env 300 (WiFi.session late_wifi_env 1)))
  = posts (trace (WiFi.session late_wifi_env 1)).
Proof.
  assert (Hoff : wifiConnected (WiFi.session late_wifi_env 1) = false)
    by (vm_compute; reflexivity).
  split; [exact late_wifi_up_from_second_pass | split; [exact Hoff |]].
  exact (proj2 (flag_stays_false_while_link_is_up late_wifi_env
                  (WiFi.session late_wifi_env 1) 300
                  late_wifi_up_from_second_pass Hoff)).
Defined.

Lemma posts_carry_session_snapshots_witness :
  (0 < 95)%nat /\ snapshots (trace (WiFi.session quiet_env 95)) <> [].
Proof.
  assert (Hpos : (0 < 95)%nat) by lia.
  split; [exact Hpos |].
  exact (proj2 (posts_carry_session_snapshots quiet_env 95) Hpos).
Defined.

